(** * AMS job descriptions ([AMSWorkflow/ams/ams_jobs.py])

    A shallow embedding of the job-description module of the AMS workflow:
    the command builder, the resource dataclass, the base job with its
    serialisation pair and its lowering to a scheduler job specification, the
    domain job's [AMS_OBJECTS] artifact, the ML job factory with its template
    substitution and the staging jobs with their pruning-module checks.

    Python values are dynamically typed.  Where the module stores or forwards
    a value without looking at it (resource counts, command-line values,
    contents of an environment dict) the value is a [pyval]; where the module
    fixes the shape itself, the field has that shape.  Exceptions are results:
    a function that can raise returns a [result]. *)

From Stdlib Require Import String Ascii List ZArith QArith Bool Lia DecimalString.
From Stdlib Require DecimalNat DecimalFacts.
Import ListNotations.
Open Scope string_scope.
Open Scope Z_scope.
Open Scope list_scope.

(** ** Exceptions *)

(** The classes of the exceptions that can leave the module.  The module
    defines no exception class of its own: everything it raises is a Python
    built-in.  [UserDefined] stands for any class that is not a built-in,
    named by its identifier. *)
Inductive exn : Type :=
| AttributeError
| TypeError
| RuntimeError
| AssertionError
| KeyError
| IndexError
| ValueError
| UserDefined (class_name : string).

Inductive result (A : Type) : Type :=
| Ok (a : A)
| Raise (e : exn).

Arguments Ok {A} a.
Arguments Raise {A} e.

Definition bind {A B : Type} (c : result A) (k : A -> result B) : result B :=
  match c with
  | Ok a => k a
  | Raise e => Raise e
  end.

Notation "x <- c ;; k" := (bind c (fun x => k))
  (at level 61, c at next level, right associativity).

Definition succeeds {A : Type} (c : result A) : Prop := exists a, c = Ok a.
Definition fails {A : Type} (c : result A) : Prop := exists e, c = Raise e.

(** ** Python values *)

(** The scalar values a JSON manifest puts in a command line, a resource
    count or an environment entry (floats are left out: their [str] is not
    modelled). *)
Inductive pyval : Type :=
| VNone
| VBool (b : bool)
| VInt (z : Z)
| VStr (s : string).

Definition string_of_Z (z : Z) : string := NilZero.string_of_int (Z.to_int z).
Definition string_of_nat (n : nat) : string := NilZero.string_of_uint (Nat.to_uint n).

(** [str(v)]. *)
Definition py_str (v : pyval) : string :=
  match v with
  | VNone => "None"
  | VBool true => "True"
  | VBool false => "False"
  | VInt z => string_of_Z z
  | VStr s => s
  end.

(** [bool] is a subclass of [int]. *)
Definition as_int (v : pyval) : option Z :=
  match v with
  | VInt z => Some z
  | VBool b => Some (if b then 1 else 0)
  | _ => None
  end.

Fixpoint repeat_string (s : string) (n : nat) : string :=
  match n with
  | O => ""
  | S n' => String.append s (repeat_string s n')
  end.

(** [a * b]: integer product, sequence repetition when one side is a string,
    [TypeError] otherwise. *)
Definition py_mul (a b : pyval) : result pyval :=
  match a, b with
  | VStr s, _ =>
      match as_int b with
      | Some n => Ok (VStr (repeat_string s (Z.to_nat n)))
      | None => Raise TypeError
      end
  | _, VStr s =>
      match as_int a with
      | Some n => Ok (VStr (repeat_string s (Z.to_nat n)))
      | None => Raise TypeError
      end
  | _, _ =>
      match as_int a, as_int b with
      | Some x, Some y => Ok (VInt (x * y))
      | _, _ => Raise TypeError
      end
  end.

(** ** Dictionaries *)

(** A [dict] keeps its keys in insertion order, and the command builder
    walks them in that order: a dictionary is the list of its items. *)
Definition strdict (V : Type) : Type := list (string * V).

Fixpoint dict_get {V : Type} (k : string) (d : strdict V) : option V :=
  match d with
  | [] => None
  | (k', v) :: d' => if String.eqb k k' then Some v else dict_get k d'
  end.

(** [d[k] = v]: an existing key keeps its place, a new key goes last. *)
Fixpoint dict_set {V : Type} (k : string) (v : V) (d : strdict V) : strdict V :=
  match d with
  | [] => [(k, v)]
  | (k', v') :: d' =>
      if String.eqb k k' then (k', v) :: d' else (k', v') :: dict_set k v d'
  end.

Definition dict_keys {V : Type} (d : strdict V) : list string := map fst d.

Definition dict_mem {V : Type} (k : string) (d : strdict V) : bool :=
  existsb (String.eqb k) (dict_keys d).

(** ** The command builder *)

(** [constuct_cli_cmd], with one positional parameter [executable], the
    other positional arguments in [args] and the keywords in [kwargs]: the
    body, over the arguments as the function receives them.  Python binds a
    keyword named [executable] to the first parameter, so [kwargs] never
    holds that key. *)
Definition constuct_cli_cmd (executable : string) (args : list pyval)
    (kwargs : strdict pyval) : list string :=
  let command := [executable] in
  let command :=
    fold_left (fun command kv => (command ++ [fst kv]) ++ [py_str (snd kv)])
              kwargs command in
  let command := fold_left (fun command a => command ++ [py_str a]) args command in
  command.

(** ** Resources *)

(** The dataclass [AMSJobResources].  A dataclass stores what it is given
    and checks no type, so every field is a [pyval]; the annotations say
    [int], [int], [int], [Optional[bool]], [Optional[int]]. *)
Record AMSJobResources : Type := {
  nodes : pyval;
  tasks_per_node : pyval;
  cores_per_task : pyval;
  exclusive : pyval;
  gpus_per_task : pyval
}.

Definition AMSJobResources_fields : list string :=
  ["nodes"; "tasks_per_node"; "cores_per_task"; "exclusive"; "gpus_per_task"].

Definition get_default {V : Type} (k : string) (d : strdict V) (default : V) : V :=
  match dict_get k d with
  | Some v => v
  | None => default
  end.

(** The constructor of [AMSJobResources], called with the items of [kw] as
    keywords (the dataclass is keyword-only): a keyword that is no field and a
    missing [nodes] or [tasks_per_node] are [TypeError]s; the other fields
    default to 1, [True] and 0. *)
Definition AMSJobResources_init (kw : strdict pyval) : result AMSJobResources :=
  if negb (forallb (fun k => existsb (String.eqb k) AMSJobResources_fields)
                   (dict_keys kw))
  then Raise TypeError
  else
    match dict_get "nodes" kw, dict_get "tasks_per_node" kw with
    | Some n, Some t =>
        Ok {| nodes := n;
              tasks_per_node := t;
              cores_per_task := get_default "cores_per_task" kw (VInt 1);
              exclusive := get_default "exclusive" kw (VBool true);
              gpus_per_task := get_default "gpus_per_task" kw (VInt 0) |}
    | _, _ => Raise TypeError
    end.

(** [AMSJobResources.to_dict]: one item per field, in field order. *)
Definition AMSJobResources_to_dict (r : AMSJobResources) : strdict pyval :=
  [("nodes", nodes r);
   ("tasks_per_node", tasks_per_node r);
   ("cores_per_task", cores_per_task r);
   ("exclusive", exclusive r);
   ("gpus_per_task", gpus_per_task r)].

(** ** The base job *)

(** A job environment, once set, is [None] or a [dict]; the setter does not
    look inside the [dict]. *)
Definition pydict : Type := list (pyval * pyval).

(** What can be assigned to [job.environ]: a scalar ([None] among them), a
    [dict], an object of the class of [os.environ], another [Mapping] that
    is no [dict] (a [MappingProxyType], say), a list. *)
Inductive environ_arg : Type :=
| AScalar (v : pyval)
| ADict (d : pydict)
| AEnviron (d : strdict string)
| AMapping (d : strdict string)
| AList (l : list pyval).

(** What can be passed as [resources]: [None], a resources object, or a
    [dict] of its fields. *)
Inductive resources_arg : Type :=
| ResNone
| ResObject (r : AMSJobResources)
| ResDict (d : strdict pyval).

Record AMSJob : Type := {
  name : string;
  executable : string;
  environ : option pydict;
  resources : option AMSJobResources;
  stdout : option string;
  stderr : option string;
  cli_args : list pyval;
  cli_kwargs : strdict pyval;
  is_mpi : option bool;
  ams_log : bool
}.

(** The [environ] setter, as the value it stores: an [os.environ] object is
    copied into a [dict]; anything that is neither a [dict] nor [None]
    raises [RuntimeError]. *)
Definition environ_value (value : environ_arg) : result (option pydict) :=
  match value with
  | AEnviron d => Ok (Some (map (fun kv => (VStr (fst kv), VStr (snd kv))) d))
  | ADict d => Ok (Some d)
  | AScalar VNone => Ok None
  | AScalar _ | AMapping _ | AList _ => Raise RuntimeError
  end.

Definition with_environ (e : option pydict) (j : AMSJob) : AMSJob :=
  {| name := name j; executable := executable j; environ := e;
     resources := resources j; stdout := stdout j; stderr := stderr j;
     cli_args := cli_args j; cli_kwargs := cli_kwargs j;
     is_mpi := is_mpi j; ams_log := ams_log j |}.

(** [job.environ = value]. *)
Definition set_environ (value : environ_arg) (j : AMSJob) : result AMSJob :=
  e <- environ_value value ;;
  Ok (with_environ e j).

Definition is_VStr (v : pyval) : bool :=
  match v with
  | VStr _ => true
  | _ => false
  end.

(** The values the contract of the setter speaks of: [None], or a mapping
    all of whose keys and values are strings. *)
Definition null_or_str_mapping (value : environ_arg) : bool :=
  match value with
  | AScalar VNone => true
  | ADict d => forallb (fun kv => is_VStr (fst kv) && is_VStr (snd kv)) d
  | AEnviron _ | AMapping _ => true
  | AScalar _ | AList _ => false
  end.

(** The values the setter lets through: [None], any [dict], an [os.environ]
    object. *)
Definition none_dict_or_environ (value : environ_arg) : bool :=
  match value with
  | AScalar VNone | ADict _ | AEnviron _ => true
  | AScalar _ | AMapping _ | AList _ => false
  end.

Definition or_default {A : Type} (o : option A) (default : A) : A :=
  match o with
  | Some a => a
  | None => default
  end.

(** [AMSJob.__init__], every parameter given.  A [dict] of resources becomes
    a resources object first, then the environment goes through its setter;
    [None] for the arguments or the flags leaves them empty. *)
Definition AMSJob_init (name executable : string) (environ : environ_arg)
    (resources : resources_arg) (stdout stderr : option string)
    (ams_log : bool) (is_mpi : option bool)
    (cli_args : option (list pyval)) (cli_kwargs : option (strdict pyval))
    : result AMSJob :=
  r <- match resources with
       | ResNone => Ok None
       | ResObject r => Ok (Some r)
       | ResDict d => r <- AMSJobResources_init d ;; Ok (Some r)
       end ;;
  e <- environ_value environ ;;
  Ok {| name := name; executable := executable; environ := e; resources := r;
        stdout := stdout; stderr := stderr;
        cli_args := or_default cli_args [];
        cli_kwargs := or_default cli_kwargs [];
        is_mpi := is_mpi; ams_log := ams_log |}.

(** [generate_cli_command]: the call of [constuct_cli_cmd] with the
    executable, the arguments unpacked as positionals and the flags unpacked
    as keywords.  A flag spelled [executable] collides with the first
    parameter, and the call raises [TypeError] before the builder runs. *)
Definition generate_cli_command (j : AMSJob) : result (list string) :=
  if dict_mem "executable" (cli_kwargs j) then Raise TypeError
  else Ok (constuct_cli_cmd (executable j) (cli_args j) (cli_kwargs j)).

(** A [dict] read as the keyword arguments of [AMSJob.__init__]: each
    keyword is absent or bound; [d_unexpected] lists the keys that name no
    parameter. *)
Record job_dict : Type := {
  d_name : option string;
  d_executable : option string;
  d_environ : option environ_arg;
  d_resources : option resources_arg;
  d_stdout : option (option string);
  d_stderr : option (option string);
  d_ams_log : option bool;
  d_is_mpi : option (option bool);
  d_cli_args : option (option (list pyval));
  d_cli_kwargs : option (option (strdict pyval));
  d_unexpected : list string
}.

(** [AMSJob.from_dict]: the constructor called with the items of the
    dictionary as keywords.  The default of [environ] is one [dict] object,
    created when the constructor is defined and shared by all calls;
    [default_environ] is its content at the time of the call. *)
Definition from_dict (default_environ : pydict) (d : job_dict) : result AMSJob :=
  match d_unexpected d with
  | _ :: _ => Raise TypeError
  | [] =>
      match d_name d, d_executable d with
      | Some n, Some e =>
          AMSJob_init n e
            (or_default (d_environ d) (ADict default_environ))
            (or_default (d_resources d) ResNone)
            (or_default (d_stdout d) None)
            (or_default (d_stderr d) None)
            (or_default (d_ams_log d) false)
            (or_default (d_is_mpi d) (Some false))
            (or_default (d_cli_args d) (Some []))
            (or_default (d_cli_kwargs d) (Some []))
      | _, _ => Raise TypeError
      end
  end.

(** [AMSJob.to_dict]: seven keys; the last one calls [to_dict] on the
    resources, which raises [AttributeError] on [None]. *)
Definition to_dict (j : AMSJob) : result job_dict :=
  match resources j with
  | None => Raise AttributeError
  | Some r =>
      Ok {| d_name := Some (name j);
            d_executable := Some (executable j);
            d_environ := None;
            d_resources := Some (ResDict (AMSJobResources_to_dict r));
            d_stdout := Some (stdout j);
            d_stderr := Some (stderr j);
            d_ams_log := None;
            d_is_mpi := None;
            d_cli_args := Some (Some (cli_args j));
            d_cli_kwargs := Some (Some (cli_kwargs j));
            d_unexpected := [] |}
  end.

(** ** The scheduler's job specification *)

(** [JobspecV1] belongs to the flux library, which is outside the
    repository.  A specification is the record of what this module gives
    it. *)
Record JobspecV1 : Type := {
  spec_command : list string;
  spec_num_tasks : pyval;
  spec_num_nodes : pyval;
  spec_cores_per_task : pyval;
  spec_gpus_per_task : pyval;
  spec_exclusive : pyval;
  spec_shell_options : strdict string;
  spec_stdout : option string;
  spec_stderr : option string;
  spec_environment : option pydict;
  spec_cwd : option string
}.

(** The library validates what it is given.  That validation is a parameter:
    [from_command_check] for the constructor, [io_path_check] for the
    [stdout] and [stderr] setters, which this module also calls with [None].
    [None] as a result means the library accepts. *)
Record flux_library : Type := {
  from_command_check :
    list string -> pyval -> pyval -> pyval -> pyval -> pyval -> option exn;
  io_path_check : option string -> option exn
}.

Definition from_command (lib : flux_library) (command : list string)
    (num_tasks num_nodes cores_per_task gpus_per_task exclusive : pyval)
    : result JobspecV1 :=
  match from_command_check lib command num_tasks num_nodes cores_per_task
                           gpus_per_task exclusive with
  | Some e => Raise e
  | None =>
      Ok {| spec_command := command;
            spec_num_tasks := num_tasks;
            spec_num_nodes := num_nodes;
            spec_cores_per_task := cores_per_task;
            spec_gpus_per_task := gpus_per_task;
            spec_exclusive := exclusive;
            spec_shell_options := [];
            spec_stdout := None;
            spec_stderr := None;
            spec_environment := None;
            spec_cwd := None |}
  end.

Definition setattr_shell_option (key value : string) (s : JobspecV1) : JobspecV1 :=
  {| spec_command := spec_command s;
     spec_num_tasks := spec_num_tasks s;
     spec_num_nodes := spec_num_nodes s;
     spec_cores_per_task := spec_cores_per_task s;
     spec_gpus_per_task := spec_gpus_per_task s;
     spec_exclusive := spec_exclusive s;
     spec_shell_options := dict_set key value (spec_shell_options s);
     spec_stdout := spec_stdout s;
     spec_stderr := spec_stderr s;
     spec_environment := spec_environment s;
     spec_cwd := spec_cwd s |}.

Definition set_stdout (lib : flux_library) (path : option string) (s : JobspecV1)
    : result JobspecV1 :=
  match io_path_check lib path with
  | Some e => Raise e
  | None =>
      Ok {| spec_command := spec_command s;
            spec_num_tasks := spec_num_tasks s;
            spec_num_nodes := spec_num_nodes s;
            spec_cores_per_task := spec_cores_per_task s;
            spec_gpus_per_task := spec_gpus_per_task s;
            spec_exclusive := spec_exclusive s;
            spec_shell_options := spec_shell_options s;
            spec_stdout := path;
            spec_stderr := spec_stderr s;
            spec_environment := spec_environment s;
            spec_cwd := spec_cwd s |}
  end.

Definition set_stderr (lib : flux_library) (path : option string) (s : JobspecV1)
    : result JobspecV1 :=
  match io_path_check lib path with
  | Some e => Raise e
  | None =>
      Ok {| spec_command := spec_command s;
            spec_num_tasks := spec_num_tasks s;
            spec_num_nodes := spec_num_nodes s;
            spec_cores_per_task := spec_cores_per_task s;
            spec_gpus_per_task := spec_gpus_per_task s;
            spec_exclusive := spec_exclusive s;
            spec_shell_options := spec_shell_options s;
            spec_stdout := spec_stdout s;
            spec_stderr := path;
            spec_environment := spec_environment s;
            spec_cwd := spec_cwd s |}
  end.

Definition set_environment_cwd (env : pydict) (cwd : string) (s : JobspecV1)
    : JobspecV1 :=
  {| spec_command := spec_command s;
     spec_num_tasks := spec_num_tasks s;
     spec_num_nodes := spec_num_nodes s;
     spec_cores_per_task := spec_cores_per_task s;
     spec_gpus_per_task := spec_gpus_per_task s;
     spec_exclusive := spec_exclusive s;
     spec_shell_options := spec_shell_options s;
     spec_stdout := spec_stdout s;
     spec_stderr := spec_stderr s;
     spec_environment := Some env;
     spec_cwd := Some cwd |}.

(** [self.resources.<field>]: attribute access on [None] raises. *)
Definition resources_attr (j : AMSJob) : result AMSJobResources :=
  match resources j with
  | Some r => Ok r
  | None => Raise AttributeError
  end.

(** [dict(self.environ)]: [None] is not iterable. *)
Definition dict_copy (e : option pydict) : result pydict :=
  match e with
  | Some d => Ok d
  | None => Raise TypeError
  end.

(** [AMSJob.to_flux_jobspec], statement by statement; [cwd] is the current
    directory of the process.  The two [print]s only write to the process's
    standard output. *)
Definition to_flux_jobspec (lib : flux_library) (cwd : string) (j : AMSJob)
    : result JobspecV1 :=
  command <- generate_cli_command j ;;
  r <- resources_attr j ;;
  num_tasks <- py_mul (tasks_per_node r) (nodes r) ;;
  jobspec <- from_command lib command num_tasks (nodes r) (cores_per_task r)
                          (gpus_per_task r) (exclusive r) ;;
  let jobspec :=
    match is_mpi j with
    | Some _ => setattr_shell_option "mpi" "spectrum" jobspec
    | None => jobspec
    end in
  let jobspec :=
    match gpus_per_task r with
    | VNone => jobspec
    | _ => setattr_shell_option "gpu-affinity" "per-task" jobspec
    end in
  jobspec <- set_stdout lib (stdout j) jobspec ;;
  jobspec <- set_stderr lib (stderr j) jobspec ;;
  jobspec <- match stdout j with
             | None => set_stdout lib (Some "ams_test.out") jobspec
             | Some _ => Ok jobspec
             end ;;
  jobspec <- match stderr j with
             | None => set_stderr lib (Some "ams_test.err") jobspec
             | Some _ => Ok jobspec
             end ;;
  env <- dict_copy (environ j) ;;
  Ok (set_environment_cwd env cwd jobspec).

(** Everything [to_flux_jobspec] does before it copies the environment. *)
Definition jobspec_before_environ (lib : flux_library) (j : AMSJob)
    : result JobspecV1 :=
  command <- generate_cli_command j ;;
  r <- resources_attr j ;;
  num_tasks <- py_mul (tasks_per_node r) (nodes r) ;;
  jobspec <- from_command lib command num_tasks (nodes r) (cores_per_task r)
                          (gpus_per_task r) (exclusive r) ;;
  let jobspec :=
    match is_mpi j with
    | Some _ => setattr_shell_option "mpi" "spectrum" jobspec
    | None => jobspec
    end in
  let jobspec :=
    match gpus_per_task r with
    | VNone => jobspec
    | _ => setattr_shell_option "gpu-affinity" "per-task" jobspec
    end in
  jobspec <- set_stdout lib (stdout j) jobspec ;;
  jobspec <- set_stderr lib (stderr j) jobspec ;;
  jobspec <- match stdout j with
             | None => set_stdout lib (Some "ams_test.out") jobspec
             | Some _ => Ok jobspec
             end ;;
  match stderr j with
  | None => set_stderr lib (Some "ams_test.err") jobspec
  | Some _ => Ok jobspec
  end.

(** ** The domain job *)

(** A JSON number that the module only copies: an integer, or a float kept
    as the rational it denotes. *)
Inductive number : Type :=
| NInt (z : Z)
| NFloat (q : Q).

(** A model as the store returns it; the module reads three of its keys. *)
Record model_record : Type := {
  uq_type : string;
  file : string;
  threshold : number
}.

(** The data store ([ams.store.AMSDataStore]) at its interface: the root
    path, the candidate path and the search by domain name, entry and
    version. *)
Record AMSDataStore : Type := {
  root_path : string;
  get_candidate_path : string;
  search : string -> string -> string -> list model_record
}.

(** The broker configuration at its interface: [to_dict], whose argument is
    the [AMSlib] flag. *)
Record AMSRMQConfiguration : Type := {
  rmq_to_dict : bool -> strdict pyval
}.

(** The [db] entry of the artifact. *)
Inductive db_descr : Type :=
| DbFs (fs_path : string) (dbType : string)
| DbRmq (rmq_config : strdict pyval) (dbType : string) (update_surrogate : bool).

Record model_entry : Type := {
  me_uq_type : string;
  me_model_path : string;
  me_uq_aggregate : string;
  me_threshold : number;
  me_db_label : string
}.

(** The [AMS_OBJECTS] dictionary. *)
Record ams_object : Type := {
  db : db_descr;
  ml_models : strdict model_entry;
  domain_models : strdict string
}.

Record AMSDomainJob : Type := {
  domain_names : list string;
  stage_dir : option string;
  _ams_object : option ams_object;
  _ams_object_fn : option string;
  job : AMSJob
}.

Definition _generate_ams_objects_store (store : AMSDataStore)
    (rmq : option AMSRMQConfiguration) (self : AMSDomainJob) : db_descr :=
  match rmq with
  | None =>
      match stage_dir self with
      | None => DbFs (get_candidate_path store) "hdf5"
      | Some dir => DbFs dir "hdf5"
      end
  | Some rmq => DbRmq (rmq_to_dict rmq true) "rmq" false
  end.

Definition enumerate {A : Type} (l : list A) : list (nat * A) :=
  combine (seq 0 (length l)) l.

(** The f-string [model_{i}]. *)
Definition model_key (i : nat) : string := String.append "model_" (string_of_nat i).

(** The entry of one domain: the first model found, or the data-gathering
    entry when the store has none. *)
Definition model_entry_of (store : AMSDataStore) (name : string) : model_entry :=
  match search store name "models" "latest" with
  | [] =>
      {| me_uq_type := "random";
         me_model_path := "";
         me_uq_aggregate := "mean";
         me_threshold := NInt 1;
         me_db_label := name |}
  | model :: _ =>
      {| me_uq_type := uq_type model;
         me_model_path := file model;
         me_uq_aggregate := "mean";
         me_threshold := threshold model;
         me_db_label := name |}
  end.

(** [_generate_ams_object]: the loop over the enumerated domain names fills
    the two dictionaries.  (The [print] of the models found is not
    modelled.) *)
Definition _generate_ams_object (store : AMSDataStore)
    (rmq : option AMSRMQConfiguration) (self : AMSDomainJob) : ams_object :=
  fold_left
    (fun obj i_name =>
       {| db := db obj;
          ml_models := dict_set (model_key (fst i_name))
                                (model_entry_of store (snd i_name))
                                (ml_models obj);
          domain_models := dict_set (snd i_name) (model_key (fst i_name))
                                    (domain_models obj) |})
    (enumerate (domain_names self))
    {| db := _generate_ams_objects_store store rmq self;
       ml_models := [];
       domain_models := [] |}.

(** [environ[k] = v] on a job environment, for a string key. *)
Fixpoint environ_set (k : string) (v : pyval) (d : pydict) : pydict :=
  match d with
  | [] => [(VStr k, v)]
  | (VStr k', v') :: d' =>
      if String.eqb k k' then (VStr k', v) :: d'
      else (VStr k', v') :: environ_set k v d'
  | kv :: d' => kv :: environ_set k v d'
  end.

(** [self.environ[k] = v]: [None] supports no item assignment. *)
Definition environ_setitem (k : string) (v : pyval) (j : AMSJob) : result AMSJob :=
  match environ j with
  | None => Raise TypeError
  | Some d => Ok (with_environ (Some (environ_set k v d)) j)
  end.

(** [AMSDomainJob.precede_deploy].  [tmp_path] is what [util.mkdir] returns
    for the store's [tmp] directory and [unique_fn] what
    [util.get_unique_fn] returns for this call.  The result comes with the
    files the call has written, each with the object dumped into it (a
    failure of the write itself is not modelled). *)
Definition precede_deploy (store : AMSDataStore) (rmq : option AMSRMQConfiguration)
    (tmp_path unique_fn : string) (self : AMSDomainJob)
    : list (string * ams_object) * result AMSDomainJob :=
  let obj := _generate_ams_object store rmq self in
  let fn := String.append tmp_path (String.append "/" (String.append unique_fn ".json")) in
  let written := [(fn, obj)] in
  (written,
   j <- environ_setitem "AMS_OBJECTS" (VStr fn) (job self) ;;
   j <- (if ams_log j then environ_setitem "AMS_LOG_LEVEL" (VStr "debug") j
         else Ok j) ;;
   Ok {| domain_names := domain_names self;
         stage_dir := stage_dir self;
         _ams_object := Some obj;
         _ams_object_fn := Some fn;
         job := j |}).

(** ** The staging jobs *)

(** The two local collections a staging constructor fills before it calls
    the base constructor. *)
Record locals : Type := {
  _cli_args : list pyval;
  _cli_kwargs : strdict pyval
}.

(** An optional string as a value. *)
Definition optional_str (o : option string) : pyval :=
  match o with
  | Some s => VStr s
  | None => VNone
  end.

(** [AMSStageJob.__init__].  A staging constructor returns its locals as
    they are when it returns or raises, and the job or the exception.
    [path_exists] is the file system as [Path.exists] sees it.  An [assert]
    that fails raises [AssertionError]. *)
Definition AMSStageJob_init (path_exists : string -> bool)
    (resources : resources_arg) (dest persistent_db_path : string)
    (store : bool) (db_type policy : string)
    (prune_module_path prune_class : option string)
    (environ : environ_arg) (stdout stderr : option string)
    (cli_args : list pyval) (cli_kwargs : strdict pyval)
    : locals * result AMSJob :=
  let args := cli_args in
  let args := if store then args ++ [VStr "--store"] else args ++ [VStr "--no-store"] in
  let kw := cli_kwargs in
  let kw := dict_set "--dest" (VStr dest) kw in
  let kw := dict_set "--persistent-db-path" (VStr persistent_db_path) kw in
  let kw := dict_set "--db-type" (VStr db_type) kw in
  let kw := dict_set "--policy" (VStr policy) kw in
  let base kw :=
    AMSJob_init "AMSStageJob" "AMSDBStage" environ resources stdout stderr
                false (Some false) (Some args) (Some kw) in
  match prune_module_path with
  | None => ({| _cli_args := args; _cli_kwargs := kw |}, base kw)
  | Some path =>
      if negb (path_exists path)
      then ({| _cli_args := args; _cli_kwargs := kw |}, Raise AssertionError)
      else
        match prune_class with
        | None => ({| _cli_args := args; _cli_kwargs := kw |}, Raise AssertionError)
        | Some class =>
            let kw := dict_set "--load" (VStr path) kw in
            let kw := dict_set "--class" (VStr class) kw in
            ({| _cli_args := args; _cli_kwargs := kw |}, base kw)
        end
  end.

(** [AMSFSStageJob.__init__]: four flags of its own, then the parent
    constructor with the default policy. *)
Definition AMSFSStageJob_init (path_exists : string -> bool)
    (resources : resources_arg) (dest persistent_db_path src : string)
    (store : bool) (db_type pattern src_type : string)
    (prune_module_path prune_class : option string)
    (environ : environ_arg) (stdout stderr : option string)
    (cli_args : list pyval) (cli_kwargs : strdict pyval)
    : locals * result AMSJob :=
  let args := cli_args in
  let kw := cli_kwargs in
  let kw := dict_set "--src" (VStr src) kw in
  let kw := dict_set "--src-type" (VStr src_type) kw in
  let kw := dict_set "--pattern" (VStr pattern) kw in
  let kw := dict_set "--mechanism" (VStr "fs") kw in
  AMSStageJob_init path_exists resources dest persistent_db_path store db_type
                   "process" prune_module_path prune_class environ stdout stderr
                   args kw.

(** [AMSNetworkStageJob.__init__]. *)
Definition AMSNetworkStageJob_init (path_exists : string -> bool)
    (resources : resources_arg) (dest persistent_db_path creds : string)
    (store : bool) (db_type : string) (update_models : bool)
    (prune_module_path prune_class : option string)
    (environ : environ_arg) (stdout stderr : option string)
    (cli_args : list pyval) (cli_kwargs : strdict pyval)
    : locals * result AMSJob :=
  let args := cli_args in
  let args := if update_models then args ++ [VStr "--update-rmq-models"] else args in
  let kw := cli_kwargs in
  let kw := dict_set "--creds" (VStr creds) kw in
  let kw := dict_set "--mechanism" (VStr "network") kw in
  AMSStageJob_init path_exists resources dest persistent_db_path store db_type
                   "process" prune_module_path prune_class environ stdout stderr
                   args kw.

(** [AMSFSTempStageJob.__init__]: a job of its own, not a child of
    [AMSStageJob].  It asserts that the pruning module exists and does not
    look at the class. *)
Definition AMSFSTempStageJob_init (path_exists : string -> bool)
    (store_dir src_dir dest_dir : string) (resources : resources_arg)
    (environ : environ_arg) (stdout stderr : option string)
    (prune_module_path prune_class : option string)
    (cli_args : list pyval) (cli_kwargs : strdict pyval)
    : locals * result AMSJob :=
  let args := cli_args in
  let args := args ++ [VStr "--store"] in
  let kw := cli_kwargs in
  let kw := dict_set "--dest" (VStr dest_dir) kw in
  let kw := dict_set "--src" (VStr src_dir) kw in
  let kw := dict_set "--pattern" (VStr "*.h5") kw in
  let kw := dict_set "--db-type" (VStr "dhdf5") kw in
  let kw := dict_set "--mechanism" (VStr "fs") kw in
  let kw := dict_set "--policy" (VStr "process") kw in
  let kw := dict_set "--persistent-db-path" (VStr store_dir) kw in
  let kw := dict_set "--src" (VStr src_dir) kw in
  let base kw :=
    AMSJob_init "AMSStage" "AMSDBStage" environ resources stdout stderr
                false (Some false) (Some args) (Some kw) in
  match prune_module_path with
  | None => ({| _cli_args := args; _cli_kwargs := kw |}, base kw)
  | Some path =>
      if negb (path_exists path)
      then ({| _cli_args := args; _cli_kwargs := kw |}, Raise AssertionError)
      else
        let kw := dict_set "--load" (VStr path) kw in
        let kw := dict_set "--class" (optional_str prune_class) kw in
        ({| _cli_args := args; _cli_kwargs := kw |}, base kw)
  end.

(** ** Template substitution *)

(** [str.format] with keyword arguments only, over ASCII templates.  A
    template is scanned from left to right into literal characters and
    replacement fields, the way CPython's formatter does it: doubled braces
    are literal braces, a field runs from a single opening brace to its
    closing brace and has a name, an optional conversion after [!] and an
    optional format specification after [:], in which braces nest. *)
Record field : Type := {
  field_name : string;
  conversion : option ascii;
  format_spec : string
}.

Inductive token : Type :=
| TChar (c : ascii)
| TField (f : field).

Inductive scan_state : Type :=
| InText
| AfterOpen
| AfterClose
| InName (name : string)
| InBracket (name : string)
| AfterBang (name : string)
| AfterConversion (name : string) (conv : ascii)
| InSpec (name : string) (conv : option ascii) (spec : string) (depth : nat).

Inductive scan_step : Type :=
| Next (st : scan_state)
| Emit (t : token) (st : scan_state)
| Stop (e : exn).

Definition snoc (s : string) (c : ascii) : string := String.append s (String c "").

Definition close_field (name : string) (conv : option ascii) (spec : string)
    : scan_step :=
  Emit (TField {| field_name := name; conversion := conv; format_spec := spec |})
       InText.

(** One character of a field name. *)
Definition name_step (name : string) (c : ascii) : scan_step :=
  if Ascii.eqb c "{" then Stop ValueError
  else if Ascii.eqb c "[" then Next (InBracket (snoc name c))
  else if Ascii.eqb c "}" then close_field name None ""
  else if Ascii.eqb c ":" then Next (InSpec name None "" 0)
  else if Ascii.eqb c "!" then Next (AfterBang name)
  else Next (InName (snoc name c)).

Definition step (st : scan_state) (c : ascii) : scan_step :=
  match st with
  | InText =>
      if Ascii.eqb c "{" then Next AfterOpen
      else if Ascii.eqb c "}" then Next AfterClose
      else Emit (TChar c) InText
  | AfterOpen =>
      if Ascii.eqb c "{" then Emit (TChar "{") InText else name_step "" c
  | AfterClose =>
      if Ascii.eqb c "}" then Emit (TChar "}") InText else Stop ValueError
  | InName name => name_step name c
  | InBracket name =>
      if Ascii.eqb c "]" then Next (InName (snoc name c))
      else Next (InBracket (snoc name c))
  | AfterBang name => Next (AfterConversion name c)
  | AfterConversion name conv =>
      if Ascii.eqb c "}" then close_field name (Some conv) ""
      else if Ascii.eqb c ":" then Next (InSpec name (Some conv) "" 0)
      else Stop ValueError
  | InSpec name conv spec depth =>
      if Ascii.eqb c "{" then Next (InSpec name conv (snoc spec c) (S depth))
      else if Ascii.eqb c "}" then
        match depth with
        | O => close_field name conv spec
        | S depth' => Next (InSpec name conv (snoc spec c) depth')
        end
      else Next (InSpec name conv (snoc spec c) depth)
  end.

(** The tokens of a template, and the error the scanner stops on, if any:
    a single brace, or a field that the template does not close. *)
Fixpoint scan (st : scan_state) (s : string) : list token * option exn :=
  match s with
  | EmptyString =>
      match st with
      | InText => ([], None)
      | _ => ([], Some ValueError)
      end
  | String c s' =>
      match step st c with
      | Next st' => scan st' s'
      | Emit t st' => let (ts, e) := scan st' s' in (t :: ts, e)
      | Stop e => ([], Some e)
      end
  end.

(** The first part of a field name: up to the first [.] or [[]. *)
Fixpoint split_first (name : string) : string * string :=
  match name with
  | EmptyString => ("", "")
  | String c name' =>
      if Ascii.eqb c "." || Ascii.eqb c "[" then ("", name)
      else let (first, rest) := split_first name' in (String c first, rest)
  end.

Definition is_digit (c : ascii) : bool :=
  let n := nat_of_ascii c in (48 <=? n)%nat && (n <=? 57)%nat.

Fixpoint all_digits (s : string) : bool :=
  match s with
  | EmptyString => true
  | String c s' => is_digit c && all_digits s'
  end.

Fixpoint decimal_value (acc : Z) (s : string) : Z :=
  match s with
  | EmptyString => acc
  | String c s' => decimal_value (10 * acc + (Z.of_nat (nat_of_ascii c) - 48)) s'
  end.

(** The largest index of a 64-bit build. *)
Definition PY_SSIZE_T_MAX : Z := 2 ^ 63 - 1.

(** What a field refers to. *)
Definition field_key (f : field) : string := fst (split_first (field_name f)).

(** The value of one field.  An empty or numeric first part is an index in
    the positional arguments, of which there are none ([IndexError]; a
    number too large for an index is a [ValueError]); any other first part
    is looked up in the keywords ([KeyError]).  A field that is the key and
    nothing else gives the string itself; attribute and item access,
    conversions and format specifications are left to [extended], which is a
    parameter. *)
Definition render_field
    (extended : string -> string -> option ascii -> string -> strdict string
                -> result string)
    (kwargs : strdict string) (f : field) : result string :=
  let (first, rest) := split_first (field_name f) in
  if all_digits first then
    if PY_SSIZE_T_MAX <? decimal_value 0 first then Raise ValueError
    else Raise IndexError
  else
    match dict_get first kwargs with
    | None => Raise KeyError
    | Some value =>
        match rest, conversion f, format_spec f with
        | EmptyString, None, EmptyString => Ok value
        | _, _, _ => extended value rest (conversion f) (format_spec f) kwargs
        end
    end.

Fixpoint render
    (extended : string -> string -> option ascii -> string -> strdict string
                -> result string)
    (kwargs : strdict string) (ts : list token) : result string :=
  match ts with
  | [] => Ok ""
  | TChar c :: ts' => s <- render extended kwargs ts' ;; Ok (String c s)
  | TField f :: ts' =>
      v <- render_field extended kwargs f ;;
      s <- render extended kwargs ts' ;;
      Ok (String.append v s)
  end.

(** [template.format] called with the items of [kwargs] as keywords: the
    fields are rendered in order, and the error of the scanner, if any,
    comes after the fields before it. *)
Definition format
    (extended : string -> string -> option ascii -> string -> strdict string
                -> result string)
    (kwargs : strdict string) (template : string) : result string :=
  let (ts, e) := scan InText template in
  s <- render extended kwargs ts ;;
  match e with
  | Some e => Raise e
  | None => Ok s
  end.

(** The keys a template refers to. *)
Fixpoint token_keys (ts : list token) : list string :=
  match ts with
  | [] => []
  | TChar _ :: ts' => token_keys ts'
  | TField f :: ts' => field_key f :: token_keys ts'
  end.

Definition template_keys (template : string) : list string :=
  token_keys (fst (scan InText template)).

(** ** The ML jobs *)

Record AMSMLJob : Type := {
  domain : string;
  ml_job : AMSJob
}.

(** [AMSJob.generate_formatting]. *)
Definition generate_formatting (store : AMSDataStore) : strdict string :=
  [("AMS_STORE_PATH", root_path store)].

(** The [cli] entry of a job description and the description itself, as
    the factory reads them: a key is absent ([None]) or bound.  For
    [cli_args], [cli_kwargs], [stdout] and [stderr], which are read with
    [get], a key bound to [None] reads like an absent one. *)
Record cli_descr : Type := {
  cli_executable : option string;
  cli_cli_args : option (list pyval);
  cli_cli_kwargs : option (strdict pyval);
  cli_stdout : option string;
  cli_stderr : option string
}.

Record ml_descr : Type := {
  descr_name : option string;
  descr_domain_name : option string;
  descr_resources : option (strdict pyval);
  descr_cli : option cli_descr;
  descr_ams_log : option bool
}.

(** [d[k]] on a key that may be absent. *)
Definition getitem {A : Type} (o : option A) : result A :=
  match o with
  | Some a => Ok a
  | None => Raise KeyError
  end.

(** The loop over the flags: a value that is a string is replaced by its
    formatting, any other value stays. *)
Fixpoint format_kwargs
    (extended : string -> string -> option ascii -> string -> strdict string
                -> result string)
    (formatting : strdict string) (kw : strdict pyval) : result (strdict pyval) :=
  match kw with
  | [] => Ok []
  | (k, VStr v) :: kw' =>
      s <- format extended formatting v ;;
      kw'' <- format_kwargs extended formatting kw' ;;
      Ok ((k, VStr s) :: kw'')
  | (k, v) :: kw' =>
      kw'' <- format_kwargs extended formatting kw' ;;
      Ok ((k, v) :: kw'')
  end.

(** The loop over the positional arguments: [v.format] on each of them,
    which is an [AttributeError] on a value that is no string. *)
Fixpoint format_args
    (extended : string -> string -> option ascii -> string -> strdict string
                -> result string)
    (formatting : strdict string) (args : list pyval) : result (list pyval) :=
  match args with
  | [] => Ok []
  | VStr v :: args' =>
      s <- format extended formatting v ;;
      args'' <- format_args extended formatting args' ;;
      Ok (VStr s :: args'')
  | _ :: _ => Raise AttributeError
  end.

Definition optionally {A B : Type} (f : A -> result B) (o : option A)
    : result (option B) :=
  match o with
  | None => Ok None
  | Some a => b <- f a ;; Ok (Some b)
  end.

(** [AMSMLJob.from_descr]. *)
Definition from_descr
    (extended : string -> string -> option ascii -> string -> strdict string
                -> result string)
    (store : AMSDataStore) (descr : ml_descr) : result AMSMLJob :=
  let formatting := generate_formatting store in
  resources_dict <- getitem (descr_resources descr) ;;
  resources <- AMSJobResources_init resources_dict ;;
  cli <- getitem (descr_cli descr) ;;
  cli_kwargs <- optionally (format_kwargs extended formatting) (cli_cli_kwargs cli) ;;
  cli_args <- optionally (format_args extended formatting) (cli_cli_args cli) ;;
  domain_name <- getitem (descr_domain_name descr) ;;
  name <- getitem (descr_name descr) ;;
  executable <- getitem (cli_executable cli) ;;
  j <- AMSJob_init name executable (AScalar VNone) (ResObject resources)
                   (cli_stdout cli) (cli_stderr cli)
                   (or_default (descr_ams_log descr) false) (Some false)
                   cli_args cli_kwargs ;;
  Ok {| domain := domain_name; ml_job := j |}.

(** What the factory does to one argument or flag value: a template
    becomes its formatting, any other value stays. *)
Definition substituted
    (extended : string -> string -> option ascii -> string -> strdict string
                -> result string)
    (formatting : strdict string) (v v' : pyval) : Prop :=
  match v with
  | VStr template => exists s, format extended formatting template = Ok s /\ v' = VStr s
  | _ => v' = v
  end.

(** ** The other constructors and factories *)

(** [environ[k]] on a job environment, for a string key. *)
Fixpoint environ_get (k : string) (d : pydict) : option pyval :=
  match d with
  | [] => None
  | (VStr k', v) :: d' => if String.eqb k k' then Some v else environ_get k d'
  | _ :: d' => environ_get k d'
  end.

(** [AMSDomainJob.__init__]: the two fields of the domain job, then the base
    constructor with the remaining arguments. *)
Definition AMSDomainJob_init (domain_names : list string) (stage_dir : option string)
    (name executable : string) (environ : environ_arg) (resources : resources_arg)
    (stdout stderr : option string) (ams_log : bool) (is_mpi : option bool)
    (cli_args : option (list pyval)) (cli_kwargs : option (strdict pyval))
    : result AMSDomainJob :=
  j <- AMSJob_init name executable environ resources stdout stderr ams_log
                   is_mpi cli_args cli_kwargs ;;
  Ok {| domain_names := domain_names;
        stage_dir := stage_dir;
        _ams_object := None;
        _ams_object_fn := None;
        job := j |}.

(** The description of a domain job as its factory reads it.  The [cli]
    entry is unpacked into keywords of the constructor, so it is a
    [job_dict]. *)
Record domain_descr : Type := {
  dd_name : option string;
  dd_domain_names : option (list string);
  dd_resources : option (strdict pyval);
  dd_ams_log : option bool;
  dd_cli : option job_dict
}.

(** The keywords the factory passes itself; the [cli] entry may not repeat
    them, nor hold a key that is no parameter. *)
Definition cli_collides (cli : job_dict) : bool :=
  match d_name cli, d_environ cli, d_resources cli, d_ams_log cli, d_unexpected cli with
  | None, None, None, None, [] => false
  | _, _, _, _, _ => true
  end.

(** [AMSDomainJob.from_descr]; [os_environ] is the environment of the
    process. *)
Definition AMSDomainJob_from_descr (os_environ : strdict string)
    (descr : domain_descr) (stage_dir : option string) : result AMSDomainJob :=
  resources_dict <- getitem (dd_resources descr) ;;
  domain_job_resources <- AMSJobResources_init resources_dict ;;
  name <- getitem (dd_name descr) ;;
  domain_names <- getitem (dd_domain_names descr) ;;
  cli <- getitem (dd_cli descr) ;;
  if cli_collides cli then Raise TypeError
  else
    match d_executable cli with
    | None => Raise TypeError
    | Some executable =>
        AMSDomainJob_init domain_names stage_dir name executable
          (AEnviron os_environ) (ResObject domain_job_resources)
          (or_default (d_stdout cli) None)
          (or_default (d_stderr cli) None)
          (or_default (dd_ams_log descr) false)
          (or_default (d_is_mpi cli) (Some false))
          (or_default (d_cli_args cli) (Some []))
          (or_default (d_cli_kwargs cli) (Some []))
    end.

(** [AMSFSTempStageJob.resources_from_domain_job]. *)
Definition resources_from_domain_job (domain_job : AMSDomainJob)
    : result AMSJobResources :=
  r <- resources_attr (job domain_job) ;;
  Ok {| nodes := nodes r;
        tasks_per_node := VInt 1;
        cores_per_task := VInt 5;
        exclusive := VBool false;
        gpus_per_task := gpus_per_task r |}.

(** The description a network staging job is built from: the keywords of
    its constructor after the four positional ones.  [nd_unexpected] lists
    the keys that name no such keyword (the four positional names among
    them). *)
Record network_descr : Type := {
  nd_store : option bool;
  nd_db_type : option string;
  nd_update_models : option bool;
  nd_prune_module_path : option (option string);
  nd_prune_class : option (option string);
  nd_environ : option environ_arg;
  nd_stdout : option (option string);
  nd_stderr : option (option string);
  nd_cli_args : option (list pyval);
  nd_cli_kwargs : option (strdict pyval);
  nd_unexpected : list string
}.

(** [AMSNetworkStageJob.from_descr]. *)
Definition AMSNetworkStageJob_from_descr (path_exists : string -> bool)
    (descr : network_descr) (dest persistent_db_path creds : string)
    (resources : resources_arg) : result AMSJob :=
  match nd_unexpected descr with
  | _ :: _ => Raise TypeError
  | [] =>
      snd (AMSNetworkStageJob_init path_exists resources dest persistent_db_path
             creds
             (or_default (nd_store descr) true)
             (or_default (nd_db_type descr) "dhdf5")
             (or_default (nd_update_models descr) false)
             (or_default (nd_prune_module_path descr) None)
             (or_default (nd_prune_class descr) None)
             (or_default (nd_environ descr) (AScalar VNone))
             (or_default (nd_stdout descr) None)
             (or_default (nd_stderr descr) None)
             (or_default (nd_cli_args descr) [])
             (or_default (nd_cli_kwargs descr) []))
  end.

(** [AMSOrchestratorJob.__init__]. *)
Definition AMSOrchestratorJob_init (os_environ : strdict string)
    (flux_uri rmq_config : pyval) : result AMSJob :=
  AMSJob_init "AMSOrchestrator" "AMSOrchestrator" (AEnviron os_environ)
    (ResObject {| nodes := VInt 1; tasks_per_node := VInt 1;
                  cores_per_task := VInt 1; exclusive := VBool false;
                  gpus_per_task := VInt 0 |})
    (Some "AMSOrchestrator-log.out") (Some "AMSOrchestrator-log.err")
    false (Some false) (Some [])
    (Some [("--ml-uri", flux_uri); ("--ams-rmq-config", rmq_config)]).

(** ** Examples *)

Definition at_least (lo : Z) (v : pyval) : bool :=
  match v with
  | VInt z => lo <=? z
  | _ => false
  end.

(** A library for the examples: it wants a command, counts that are
    integers of at least one, a GPU count that is [None] or a natural number,
    and paths that are strings. *)
Definition checking_library : flux_library :=
  {| from_command_check :=
       fun command num_tasks num_nodes cores gpus _ =>
         match command with
         | [] => Some ValueError
         | _ :: _ =>
             if at_least 1 num_tasks && at_least 1 num_nodes && at_least 1 cores
                && match gpus with VNone => true | _ => at_least 0 gpus end
             then None else Some ValueError
         end;
     io_path_check :=
       fun path => match path with Some _ => None | None => Some TypeError end |}.

Definition two_by_three : AMSJobResources :=
  {| nodes := VInt 2; tasks_per_node := VInt 3; cores_per_task := VInt 1;
     exclusive := VBool true; gpus_per_task := VInt 0 |}.

(** An MPI training job with logging and an environment. *)
Definition train_job : AMSJob :=
  {| name := "train"; executable := "python";
     environ := Some [(VStr "OMP_NUM_THREADS", VStr "4")];
     resources := Some {| nodes := VInt 1; tasks_per_node := VInt 2;
                          cores_per_task := VInt 1; exclusive := VBool true;
                          gpus_per_task := VInt 0 |};
     stdout := Some "train.out"; stderr := None;
     cli_args := [VStr "fit.py"]; cli_kwargs := [("--epochs", VInt 3)];
     is_mpi := Some true; ams_log := true |}.

(** A job built with [is_mpi=False], an empty environment and resources. *)
Definition serial_job : AMSJob :=
  {| name := "post"; executable := "run";
     environ := Some [];
     resources := Some two_by_three;
     stdout := Some "post.out"; stderr := Some "post.err";
     cli_args := [VStr "a"; VStr "b"]; cli_kwargs := [("--x", VInt 1)];
     is_mpi := Some false; ams_log := false |}.

(** The same job without resources. *)
Definition unsized_job : AMSJob :=
  {| name := "post"; executable := "run";
     environ := Some [];
     resources := None;
     stdout := Some "post.out"; stderr := Some "post.err";
     cli_args := [VStr "a"; VStr "b"]; cli_kwargs := [("--x", VInt 1)];
     is_mpi := Some false; ams_log := false |}.

(** The same job with a flag spelled like the first parameter of the
    command builder. *)
Definition shadowing_job : AMSJob :=
  {| name := "post"; executable := "run";
     environ := Some [];
     resources := Some two_by_three;
     stdout := Some "post.out"; stderr := Some "post.err";
     cli_args := [VStr "a"; VStr "b"];
     cli_kwargs := [("--x", VInt 1); ("executable", VStr "other")];
     is_mpi := Some false; ams_log := false |}.

(** A store with one model, registered for the domain [ion], and a domain
    job over the domains [ion] and [electron]. *)
Definition one_model_store : AMSDataStore :=
  {| root_path := "/db";
     get_candidate_path := "/db/candidates";
     search := fun domain_name _ _ =>
       if String.eqb domain_name "ion"
       then [{| uq_type := "faiss"; file := "m.pt"; threshold := NFloat (1 # 2) |}]
       else [] |}.

Definition two_domain_job : AMSDomainJob :=
  {| domain_names := ["ion"; "electron"];
     stage_dir := None;
     _ams_object := None;
     _ams_object_fn := None;
     job := serial_job |}.

(** A formatter that supports plain fields only, and two descriptions of
    a training job: one whose templates use the store path, one with a
    template over a key the factory does not provide. *)
Definition plain_fields_only
    : string -> string -> option ascii -> string -> strdict string -> result string :=
  fun _ _ _ _ _ => Raise ValueError.

Definition train_descr : ml_descr :=
  {| descr_name := Some "train";
     descr_domain_name := Some "ion";
     descr_resources := Some [("nodes", VInt 1); ("tasks_per_node", VInt 1)];
     descr_cli :=
       Some {| cli_executable := Some "python";
               cli_cli_args := Some [VStr "fit.py"; VStr "{AMS_STORE_PATH}/data"];
               cli_cli_kwargs := Some [("--out", VStr "{AMS_STORE_PATH}/models");
                                       ("--epochs", VInt 3)];
               cli_stdout := None;
               cli_stderr := None |};
     descr_ams_log := None |}.

Definition stray_key_descr : ml_descr :=
  {| descr_name := Some "train";
     descr_domain_name := Some "ion";
     descr_resources := Some [("nodes", VInt 1); ("tasks_per_node", VInt 1)];
     descr_cli :=
       Some {| cli_executable := Some "python";
               cli_cli_args := Some [VStr "fit.py"];
               cli_cli_kwargs := Some [("--out", VStr "{AMS_MODEL_PATH}/models")];
               cli_stdout := None;
               cli_stderr := None |};
     descr_ams_log := None |}.

(** ** Predicates and examples for the further properties *)

(** A library that accepts whatever it is given: with it, the only failures
    of a lowering are the module's own. *)
Definition accepting_library : flux_library :=
  {| from_command_check := fun _ _ _ _ _ _ => None;
     io_path_check := fun _ => None |}.

(** A dictionary that names no resources; [from_dict] turns it into
    [unsized_job]. *)
Definition unsized_dict : job_dict :=
  {| d_name := Some "post"; d_executable := Some "run";
     d_environ := None; d_resources := None;
     d_stdout := Some (Some "post.out"); d_stderr := Some (Some "post.err");
     d_ams_log := None; d_is_mpi := None;
     d_cli_args := Some (Some [VStr "a"; VStr "b"]);
     d_cli_kwargs := Some (Some [("--x", VInt 1)]);
     d_unexpected := [] |}.

(** The last position of a name in a list of names, if it is there. *)
Fixpoint last_index (name : string) (names : list string) : option nat :=
  match names with
  | [] => None
  | n :: rest =>
      match last_index name rest with
      | Some i => Some (S i)
      | None => if String.eqb name n then Some O else None
      end
  end.

(** The file [precede_deploy] writes: the f-string
    [{tmp_path}/{unique_fn}.json]. *)
Definition ams_object_path (tmp_path unique_fn : string) : string :=
  String.append tmp_path (String.append "/" (String.append unique_fn ".json")).

(** A domain job whose job has no environment. *)
Definition envless_domain_job : AMSDomainJob :=
  {| domain_names := ["ion"];
     stage_dir := Some "/scratch/stage";
     _ams_object := None;
     _ams_object_fn := None;
     job := with_environ None serial_job |}.

(** The description of a domain job, and a process environment. *)
Definition ion_descr : domain_descr :=
  {| dd_name := Some "ion-run";
     dd_domain_names := Some ["ion"];
     dd_resources := Some [("nodes", VInt 2); ("tasks_per_node", VInt 4)];
     dd_ams_log := Some true;
     dd_cli :=
       Some {| d_name := None; d_executable := Some "ion_app";
               d_environ := None; d_resources := None;
               d_stdout := Some (Some "ion.out"); d_stderr := None;
               d_ams_log := None; d_is_mpi := Some (Some true);
               d_cli_args := Some (Some [VStr "input.yaml"]);
               d_cli_kwargs := None;
               d_unexpected := [] |} |}.

Definition process_environ : strdict string :=
  [("PATH", "/usr/bin"); ("HOME", "/home/ams")].

(** A string without a brace: a template with nothing to substitute. *)
Fixpoint brace_free (s : string) : bool :=
  match s with
  | EmptyString => true
  | String c s' =>
      negb (Ascii.eqb c "{") && negb (Ascii.eqb c "}") && brace_free s'
  end.

(** The description of a training job with an integer among its positional
    arguments. *)
Definition int_arg_descr : ml_descr :=
  {| descr_name := Some "train";
     descr_domain_name := Some "ion";
     descr_resources := Some [("nodes", VInt 1); ("tasks_per_node", VInt 1)];
     descr_cli :=
       Some {| cli_executable := Some "python";
               cli_cli_args := Some [VStr "fit.py"; VInt 3];
               cli_cli_kwargs := Some [("--epochs", VInt 3)];
               cli_stdout := None;
               cli_stderr := None |};
     descr_ams_log := None |}.

(** The description of a training job without a template. *)
Definition plain_cli : cli_descr :=
  {| cli_executable := Some "python";
     cli_cli_args := Some [VStr "fit.py"];
     cli_cli_kwargs := Some [("--epochs", VInt 3); ("--out", VStr "models")];
     cli_stdout := None;
     cli_stderr := None |}.

Definition plain_descr : ml_descr :=
  {| descr_name := Some "train";
     descr_domain_name := Some "ion";
     descr_resources := Some [("nodes", VInt 1); ("tasks_per_node", VInt 1)];
     descr_cli := Some plain_cli;
     descr_ams_log := None |}.

(** * Theorems *)

Lemma fold_left_append_kwargs (kwargs : strdict pyval) (acc : list string) :
  fold_left (fun command kv => (command ++ [fst kv]) ++ [py_str (snd kv)]) kwargs acc
  = acc ++ flat_map (fun kv => [fst kv; py_str (snd kv)]) kwargs.
Proof.
  revert acc.
  induction kwargs as [|[k v] rest IH]; intros acc; simpl.
  - now rewrite app_nil_r.
  - rewrite IH. now rewrite <- !app_assoc.
Qed.

Lemma fold_left_append_args (args : list pyval) (acc : list string) :
  fold_left (fun command a => command ++ [py_str a]) args acc
  = acc ++ map py_str args.
Proof.
  revert acc.
  induction args as [|a rest IH]; intros acc; simpl.
  - now rewrite app_nil_r.
  - rewrite IH. now rewrite <- app_assoc.
Qed.

(** Counterexample to C6 as stated: a mapping of flags with a key
    spelled [executable] gives no command vector.  Python binds that
    keyword to the first parameter of the builder, which the job's
    executable already fills, and the call raises [TypeError]. *)
Lemma generate_cli_command_executable_flag :
  dict_mem "executable" (cli_kwargs shadowing_job) = true
  /\ generate_cli_command shadowing_job = Raise TypeError
  /\ (forall command, generate_cli_command shadowing_job <> Ok command).
Proof. repeat split; discriminate. Qed.

(** C6, amended: for every executable, every sequence of positional
    arguments and every mapping of flags with no key spelled [executable],
    the command vector is the executable, then each flag immediately
    followed by its stringified value in the order of the mapping, then the
    stringified positional arguments in order, and [generate_cli_command]
    returns that vector for a job with these fields; for a job with a flag
    spelled [executable] the call raises [TypeError].  Stringification is
    [str]: a string is itself, an integer is its decimal numeral, and [None],
    [True] and [False] are their names.  The builder is a function of its
    arguments. *)
Theorem constuct_cli_cmd_layout (exe : string) (args : list pyval)
    (kwargs : strdict pyval) (Hflags : dict_mem "executable" kwargs = false) :
  constuct_cli_cmd exe args kwargs
  = exe :: flat_map (fun kv => [fst kv; py_str (snd kv)]) kwargs ++ map py_str args
  /\ (forall j : AMSJob,
         executable j = exe -> cli_args j = args -> cli_kwargs j = kwargs ->
         generate_cli_command j
         = Ok (exe :: flat_map (fun kv => [fst kv; py_str (snd kv)]) kwargs
                   ++ map py_str args))
  /\ (forall j : AMSJob,
         dict_mem "executable" (cli_kwargs j) = true ->
         generate_cli_command j = Raise TypeError)
  /\ (forall s, py_str (VStr s) = s)
  /\ (forall z, py_str (VInt z) = NilZero.string_of_int (Z.to_int z))
  /\ py_str VNone = "None"
  /\ py_str (VBool true) = "True"
  /\ py_str (VBool false) = "False".
Proof.
  assert (Hlayout : constuct_cli_cmd exe args kwargs
                    = exe :: flat_map (fun kv => [fst kv; py_str (snd kv)]) kwargs
                          ++ map py_str args).
  { unfold constuct_cli_cmd.
    rewrite fold_left_append_args, fold_left_append_kwargs. reflexivity. }
  split; [exact Hlayout|]. split; [|split].
  - intros j He Ha Hk. unfold generate_cli_command.
    rewrite Hk, Hflags, He, Ha, Hlayout. reflexivity.
  - intros j Hj. unfold generate_cli_command. now rewrite Hj.
  - repeat split.
Qed.

Lemma constuct_cli_cmd_layout_witness :
  constuct_cli_cmd "run" [VStr "a"; VStr "b"] [("--x", VInt 1)]
  = ["run"; "--x"; "1"; "a"; "b"]
  /\ generate_cli_command serial_job = Ok ["run"; "--x"; "1"; "a"; "b"]
  /\ constuct_cli_cmd "stage" [VNone; VBool false; VStr "in.h5"]
       [("--n", VInt (-7)); ("--force", VBool true)]
     = ["stage"; "--n"; "-7"; "--force"; "True"; "None"; "False"; "in.h5"].
Proof.
  split; [|split].
  - exact (proj1 (constuct_cli_cmd_layout "run" [VStr "a"; VStr "b"]
                    [("--x", VInt 1)] eq_refl)).
  - exact (proj1 (proj2 (constuct_cli_cmd_layout "run" [VStr "a"; VStr "b"]
                           [("--x", VInt 1)] eq_refl))
             serial_job eq_refl eq_refl eq_refl).
  - exact (proj1 (constuct_cli_cmd_layout "stage" [VNone; VBool false; VStr "in.h5"]
                    [("--n", VInt (-7)); ("--force", VBool true)] eq_refl)).
Defined.

(** A job whose flags do not collide with the parameter [executable] gets
    its command from the builder. *)
Lemma generate_cli_command_layout (j : AMSJob) :
  dict_mem "executable" (cli_kwargs j) = false ->
  generate_cli_command j
  = Ok (executable j
          :: flat_map (fun kv => [fst kv; py_str (snd kv)]) (cli_kwargs j)
          ++ map py_str (cli_args j)).
Proof.
  intros H. unfold generate_cli_command, constuct_cli_cmd. rewrite H.
  now rewrite fold_left_append_args, fold_left_append_kwargs.
Qed.

(** ** Serialisation *)

Lemma AMSJobResources_roundtrip (r : AMSJobResources) :
  AMSJobResources_init (AMSJobResources_to_dict r) = Ok r.
Proof. destruct r; reflexivity. Qed.

(** Counterexample to C1 as stated: an MPI job with logging and an
    environment comes back from [to_dict] then [from_dict] with [is_mpi]
    false, [ams_log] false and the empty default environment. *)
Lemma roundtrip_loses_mpi_log_environ :
  exists j',
    (d <- to_dict train_job ;; from_dict [] d) = Ok j'
    /\ is_mpi train_job = Some true /\ is_mpi j' = Some false
    /\ ams_log train_job = true /\ ams_log j' = false
    /\ environ train_job = Some [(VStr "OMP_NUM_THREADS", VStr "4")]
    /\ environ j' = Some [].
Proof. eexists. repeat split; reflexivity. Qed.

(** C1, amended: for a job with resources, [to_dict] then [from_dict]
    gives back a job with the same name, executable, stdout, stderr,
    arguments, flags and resources; [is_mpi], [ams_log] and the environment
    are not serialised, and the rebuilt job has the constructor's defaults
    for them.  A resources object goes through [to_dict] and the constructor
    unchanged. *)
Theorem roundtrip_serialised_fields (default_environ : pydict) (j : AMSJob)
    (r : AMSJobResources) (Hres : resources j = Some r) :
  (exists j',
      (d <- to_dict j ;; from_dict default_environ d) = Ok j'
      /\ name j' = name j
      /\ executable j' = executable j
      /\ stdout j' = stdout j
      /\ stderr j' = stderr j
      /\ cli_args j' = cli_args j
      /\ cli_kwargs j' = cli_kwargs j
      /\ resources j' = Some r
      /\ is_mpi j' = Some false
      /\ ams_log j' = false
      /\ environ j' = Some default_environ)
  /\ AMSJobResources_init (AMSJobResources_to_dict r) = Ok r.
Proof.
  split; [|apply AMSJobResources_roundtrip].
  unfold to_dict. rewrite Hres. cbn [bind].
  unfold from_dict. cbn [d_unexpected d_name d_executable d_environ d_resources
    d_stdout d_stderr d_ams_log d_is_mpi d_cli_args d_cli_kwargs or_default].
  unfold AMSJob_init. rewrite AMSJobResources_roundtrip. cbn.
  eexists. repeat split; reflexivity.
Qed.

Lemma roundtrip_serialised_fields_witness :
  exists j',
    (d <- to_dict train_job ;; from_dict [] d) = Ok j'
    /\ name j' = "train" /\ cli_kwargs j' = [("--epochs", VInt 3)].
Proof.
  destruct (roundtrip_serialised_fields [] train_job _ eq_refl)
    as [[j' (E & Hn & _ & _ & _ & _ & Hk & _)] _].
  exists j'. repeat split; assumption.
Defined.

(** C10: [to_dict] succeeds exactly when the job has resources; without
    them it raises the [AttributeError] of calling [to_dict] on [None]. *)
Theorem to_dict_needs_resources (j : AMSJob) :
  (succeeds (to_dict j) <-> resources j <> None)
  /\ (resources j = None -> to_dict j = Raise AttributeError).
Proof.
  unfold to_dict, succeeds.
  destruct (resources j) as [r|]; split.
  - split; [discriminate | intros _; eexists; reflexivity].
  - discriminate.
  - split; [intros [d Hd]; discriminate | intros H; now elim H].
  - reflexivity.
Qed.

Lemma to_dict_needs_resources_witness :
  to_dict unsized_job = Raise AttributeError.
Proof.
  apply (proj2 (to_dict_needs_resources _)). reflexivity.
Defined.

(** ** The environment setter *)

(** Counterexample to C8 as stated: a [dict] with integer key and value is
    no string-to-string mapping, and the setter stores it. *)
Lemma set_environ_accepts_int_dict :
  null_or_str_mapping (ADict [(VInt 1, VInt 2)]) = false
  /\ set_environ (ADict [(VInt 1, VInt 2)]) train_job
     = Ok (with_environ (Some [(VInt 1, VInt 2)]) train_job).
Proof. split; reflexivity. Qed.

(** C8, amended: assigning to [environ] succeeds exactly when the value is
    [None], a [dict] (whatever it holds) or an [os.environ] object; a [dict]
    and [None] are stored as they are, an [os.environ] object is stored as
    a [dict] of its items, variable for variable; every other value is
    rejected with a [RuntimeError]. *)
Theorem set_environ_accepts (value : environ_arg) (j : AMSJob) :
  (succeeds (set_environ value j) <-> none_dict_or_environ value = true)
  /\ (none_dict_or_environ value = false -> set_environ value j = Raise RuntimeError)
  /\ (forall d, value = ADict d -> set_environ value j = Ok (with_environ (Some d) j))
  /\ (value = AScalar VNone -> set_environ value j = Ok (with_environ None j))
  /\ (forall d, value = AEnviron d ->
        exists items,
          set_environ value j = Ok (with_environ (Some items) j)
          /\ items = map (fun kv => (VStr (fst kv), VStr (snd kv))) d
          /\ length items = length d
          /\ forall k, environ_get k items = option_map VStr (dict_get k d)).
Proof.
  unfold set_environ, succeeds.
  split; [|split; [|split; [|split]]].
  - split.
    + destruct value as [[]| | | |]; cbn; intros [j' H]; try reflexivity; discriminate.
    + destruct value as [[]| | | |]; cbn; intros H; try discriminate;
        eexists; reflexivity.
  - destruct value as [[]| | | |]; cbn; intros H; try discriminate; reflexivity.
  - intros d ->. reflexivity.
  - intros ->. reflexivity.
  - intros d ->. eexists. split; [reflexivity|]. split; [reflexivity|]. split.
    + apply length_map.
    + intros k. induction d as [|[k' v'] d IH]; cbn; [reflexivity|].
      destruct (String.eqb k k'); [reflexivity|exact IH].
Qed.

Lemma set_environ_accepts_witness :
  set_environ (AList [VStr "PATH"]) train_job = Raise RuntimeError
  /\ exists items,
       set_environ (AEnviron [("PATH", "/usr/bin"); ("HOME", "/home/ams")]) train_job
       = Ok (with_environ (Some items) train_job)
       /\ items = [(VStr "PATH", VStr "/usr/bin"); (VStr "HOME", VStr "/home/ams")].
Proof.
  split.
  - apply (proj1 (proj2 (set_environ_accepts _ _))). reflexivity.
  - destruct (proj2 (proj2 (proj2 (proj2
                (set_environ_accepts
                   (AEnviron [("PATH", "/usr/bin"); ("HOME", "/home/ams")])
                   train_job))))
                _ eq_refl)
      as (items & Hset & Hitems & _).
    exists items. split; [exact Hset | exact Hitems].
Defined.

(** ** Lowering to a job specification *)

Ltac step_bind :=
  match goal with
  | |- context [bind ?c _] =>
      let E := fresh "E" in destruct c eqn:E; cbn [bind]
  | H : context [bind ?c _] |- _ =>
      let E := fresh "E" in destruct c eqn:E; cbn [bind] in H
  end.

Lemma to_flux_jobspec_with_environ (lib : flux_library) (cwd : string)
    (j : AMSJob) (e : option pydict) :
  to_flux_jobspec lib cwd (with_environ e j)
  = (jobspec <- jobspec_before_environ lib j ;;
     env <- dict_copy e ;;
     Ok (set_environment_cwd env cwd jobspec)).
Proof.
  unfold to_flux_jobspec, jobspec_before_environ.
  change (generate_cli_command (with_environ e j)) with (generate_cli_command j).
  change (resources_attr (with_environ e j)) with (resources_attr j).
  cbn [with_environ is_mpi stdout stderr environ].
  repeat (step_bind; [|reflexivity]).
  reflexivity.
Qed.

Lemma with_environ_same (j : AMSJob) : with_environ (environ j) j = j.
Proof. destruct j; reflexivity. Qed.

(** C5, amended: without resources, [to_flux_jobspec] fails before the
    library is called, with the [AttributeError] of reading an attribute of
    [None] (or, when a flag is spelled [executable], with the [TypeError] of
    the call of the command builder, which comes first). *)
Theorem to_flux_jobspec_without_resources (lib : flux_library) (cwd : string)
    (j : AMSJob) (Hres : resources j = None) :
  fails (to_flux_jobspec lib cwd j)
  /\ (dict_mem "executable" (cli_kwargs j) = false ->
      to_flux_jobspec lib cwd j = Raise AttributeError)
  /\ (dict_mem "executable" (cli_kwargs j) = true ->
      to_flux_jobspec lib cwd j = Raise TypeError).
Proof.
  unfold to_flux_jobspec, generate_cli_command, resources_attr, fails.
  rewrite Hres.
  destruct (dict_mem "executable" (cli_kwargs j)); cbn [bind]; repeat split;
    try discriminate; try reflexivity; eexists; reflexivity.
Qed.

Lemma to_flux_jobspec_without_resources_witness :
  to_flux_jobspec checking_library "/work" unsized_job = Raise AttributeError.
Proof.
  apply (proj1 (proj2 (to_flux_jobspec_without_resources
                         checking_library "/work" unsized_job eq_refl))).
  reflexivity.
Defined.

(** Counterexample to C5 as stated: the failure of a job without resources
    is the built-in [AttributeError], not an error of a class named
    [ResourceError]. *)
Lemma to_flux_jobspec_without_resources_attribute_error :
  resources unsized_job = None
  /\ to_flux_jobspec checking_library "/work" unsized_job = Raise AttributeError
  /\ to_flux_jobspec checking_library "/work" unsized_job
     <> Raise (UserDefined "ResourceError").
Proof. repeat split; discriminate. Qed.

(** What [to_flux_jobspec] returns, when it returns: the specification in
    closed form, with what the job and the library answered on the way. *)
Lemma to_flux_jobspec_inversion (lib : flux_library) (cwd : string) (j : AMSJob)
    (spec : JobspecV1) :
  to_flux_jobspec lib cwd j = Ok spec ->
  exists (r : AMSJobResources) (env : pydict) (num_tasks : pyval),
    resources j = Some r
    /\ environ j = Some env
    /\ dict_mem "executable" (cli_kwargs j) = false
    /\ py_mul (tasks_per_node r) (nodes r) = Ok num_tasks
    /\ from_command_check lib
         (constuct_cli_cmd (executable j) (cli_args j) (cli_kwargs j))
         num_tasks (nodes r) (cores_per_task r) (gpus_per_task r) (exclusive r)
       = None
    /\ io_path_check lib (stdout j) = None
    /\ io_path_check lib (stderr j) = None
    /\ spec = {| spec_command :=
                   constuct_cli_cmd (executable j) (cli_args j) (cli_kwargs j);
                 spec_num_tasks := num_tasks;
                 spec_num_nodes := nodes r;
                 spec_cores_per_task := cores_per_task r;
                 spec_gpus_per_task := gpus_per_task r;
                 spec_exclusive := exclusive r;
                 spec_shell_options :=
                   match is_mpi j with
                   | Some _ => [("mpi", "spectrum")]
                   | None => []
                   end
                   ++ match gpus_per_task r with
                      | VNone => []
                      | _ => [("gpu-affinity", "per-task")]
                      end;
                 spec_stdout := Some (or_default (stdout j) "ams_test.out");
                 spec_stderr := Some (or_default (stderr j) "ams_test.err");
                 spec_environment := Some env;
                 spec_cwd := Some cwd |}.
Proof.
  unfold to_flux_jobspec, generate_cli_command, resources_attr.
  destruct (dict_mem "executable" (cli_kwargs j)); [discriminate|cbn [bind]].
  destruct (resources j) as [r|]; [cbn [bind]|discriminate].
  destruct (py_mul (tasks_per_node r) (nodes r)) as [num_tasks|] eqn:Emul;
    [cbn [bind]|discriminate].
  unfold from_command.
  destruct (from_command_check _ _ _ _ _ _ _) eqn:Echeck; [discriminate|cbn [bind]].
  intros H. exists r.
  generalize dependent (constuct_cli_cmd (executable j) (cli_args j) (cli_kwargs j)).
  intros command Echeck H.
  destruct (environ j) as [env|].
  - exists env, num_tasks.
    destruct (is_mpi j), (gpus_per_task r), (stdout j) as [out|], (stderr j) as [err|];
      unfold set_stdout, set_stderr in H; cbn in H;
      repeat match type of H with
        | context [io_path_check lib ?p] =>
            destruct (io_path_check lib p) eqn:?; cbn in H; try discriminate
        end;
      injection H as <-; repeat split; assumption.
  - exfalso.
    destruct (is_mpi j), (gpus_per_task r), (stdout j) as [out|], (stderr j) as [err|];
      unfold set_stdout, set_stderr in H; cbn in H;
      repeat match type of H with
        | context [io_path_check lib ?p] =>
            destruct (io_path_check lib p) eqn:?; cbn in H; try discriminate
        end;
      discriminate.
Qed.

(** The shell options of a specification say what the job is: [mpi] is set
    whenever [is_mpi] is not [None], [gpu-affinity] whenever the GPU count
    is not [None]. *)
Lemma to_flux_jobspec_shell_options (lib : flux_library) (cwd : string)
    (j : AMSJob) (spec : JobspecV1) :
  to_flux_jobspec lib cwd j = Ok spec ->
  exists r, resources j = Some r
    /\ (dict_get "mpi" (spec_shell_options spec) = Some "spectrum"
        <-> is_mpi j <> None)
    /\ (dict_get "gpu-affinity" (spec_shell_options spec) = Some "per-task"
        <-> gpus_per_task r <> VNone).
Proof.
  intros H.
  destruct (to_flux_jobspec_inversion _ _ _ _ H)
    as (r & env & num_tasks & Hr & _ & _ & _ & _ & _ & _ & ->).
  exists r. split; [assumption|]. cbn [spec_shell_options].
  destruct (gpus_per_task r), (is_mpi j); cbn; split; split; congruence.
Qed.

(** C2, at a job built with [is_mpi=False]: the specification carries the
    MPI shell option all the same, because the test is [is not None]. *)
Theorem to_flux_jobspec_serial_job_has_mpi_option :
  exists spec,
    to_flux_jobspec checking_library "/work" serial_job = Ok spec
    /\ is_mpi serial_job = Some false
    /\ dict_get "mpi" (spec_shell_options spec) = Some "spectrum"
    /\ spec_num_tasks spec = VInt 6.
Proof. eexists. repeat split. Qed.

(** ** The artifact of a domain job *)

Lemma model_entry_of_none (store : AMSDataStore) (name : string) :
  search store name "models" "latest" = [] ->
  model_entry_of store name
  = {| me_uq_type := "random"; me_model_path := ""; me_uq_aggregate := "mean";
       me_threshold := NInt 1; me_db_label := name |}.
Proof. unfold model_entry_of. now intros ->. Qed.

Lemma model_entry_of_first (store : AMSDataStore) (name : string)
    (model : model_record) (others : list model_record) :
  search store name "models" "latest" = model :: others ->
  model_entry_of store name
  = {| me_uq_type := uq_type model; me_model_path := file model;
       me_uq_aggregate := "mean"; me_threshold := threshold model;
       me_db_label := name |}.
Proof. unfold model_entry_of. now intros ->. Qed.

Lemma generate_ams_object_two (store : AMSDataStore)
    (rmq : option AMSRMQConfiguration) (self : AMSDomainJob) (d1 d2 : string) :
  domain_names self = [d1; d2] ->
  d1 <> d2 ->
  _generate_ams_object store rmq self
  = {| db := _generate_ams_objects_store store rmq self;
       ml_models := [("model_0", model_entry_of store d1);
                     ("model_1", model_entry_of store d2)];
       domain_models := [(d1, "model_0"); (d2, "model_1")] |}.
Proof.
  intros Hnames Hneq. unfold _generate_ams_object. rewrite Hnames. cbn.
  assert (E : String.eqb d2 d1 = false) by (apply String.eqb_neq; congruence).
  now rewrite E.
Qed.

(** C4: for a domain job over two domains, one with a model in the store
    and one without, [precede_deploy] writes one artifact; it has exactly
    two [ml_models] entries and two [domain_models] entries, each domain
    name is mapped to the key of its entry, the entry of the domain without
    a model is the [random] placeholder with an empty path and threshold 1,
    and the entry of the other domain carries the first model found. *)
Theorem precede_deploy_two_domains (store : AMSDataStore)
    (rmq : option AMSRMQConfiguration) (tmp_path unique_fn : string)
    (self : AMSDomainJob) (d_model d_none : string)
    (model : model_record) (others : list model_record)
    (Hnames : domain_names self = [d_model; d_none]
              \/ domain_names self = [d_none; d_model])
    (Hmodel : search store d_model "models" "latest" = model :: others)
    (Hnone : search store d_none "models" "latest" = []) :
  exists (fn : string) (obj : ams_object) (key_model key_none : string),
    fst (precede_deploy store rmq tmp_path unique_fn self) = [(fn, obj)]
    /\ obj = _generate_ams_object store rmq self
    /\ length (ml_models obj) = 2%nat
    /\ length (domain_models obj) = 2%nat
    /\ dict_get d_model (domain_models obj) = Some key_model
    /\ dict_get d_none (domain_models obj) = Some key_none
    /\ dict_get key_none (ml_models obj)
       = Some {| me_uq_type := "random"; me_model_path := "";
                 me_uq_aggregate := "mean"; me_threshold := NInt 1;
                 me_db_label := d_none |}
    /\ dict_get key_model (ml_models obj)
       = Some {| me_uq_type := uq_type model; me_model_path := file model;
                 me_uq_aggregate := "mean"; me_threshold := threshold model;
                 me_db_label := d_model |}.
Proof.
  assert (Hneq : d_model <> d_none).
  { intros ->. rewrite Hnone in Hmodel. discriminate. }
  assert (E1 : String.eqb d_model d_none = false) by now apply String.eqb_neq.
  assert (E2 : String.eqb d_none d_model = false)
    by (apply String.eqb_neq; congruence).
  pose proof (model_entry_of_none store d_none Hnone) as Rn.
  pose proof (model_entry_of_first store d_model model others Hmodel) as Rm.
  destruct Hnames as [Hnames | Hnames].
  - pose proof (generate_ams_object_two store rmq self _ _ Hnames Hneq) as G.
    eexists. exists (_generate_ams_object store rmq self), "model_0", "model_1".
    split; [reflexivity|]. split; [reflexivity|].
    rewrite G. cbn. rewrite String.eqb_refl, E2, String.eqb_refl, Rn, Rm.
    repeat split; reflexivity.
  - pose proof (generate_ams_object_two store rmq self _ _ Hnames
                  (fun H => Hneq (eq_sym H))) as G.
    eexists. exists (_generate_ams_object store rmq self), "model_1", "model_0".
    split; [reflexivity|]. split; [reflexivity|].
    rewrite G. cbn. rewrite String.eqb_refl, E1, String.eqb_refl, Rn, Rm.
    repeat split; reflexivity.
Qed.

Lemma precede_deploy_two_domains_witness :
  exists (fn : string) (obj : ams_object),
    fst (precede_deploy one_model_store None "/db/tmp" "f81d4fae" two_domain_job)
    = [(fn, obj)]
    /\ fn = "/db/tmp/f81d4fae.json"
    /\ ml_models obj
       = [("model_0",
           {| me_uq_type := "faiss"; me_model_path := "m.pt";
              me_uq_aggregate := "mean"; me_threshold := NFloat (1 # 2);
              me_db_label := "ion" |});
          ("model_1",
           {| me_uq_type := "random"; me_model_path := "";
              me_uq_aggregate := "mean"; me_threshold := NInt 1;
              me_db_label := "electron" |})]
    /\ domain_models obj = [("ion", "model_0"); ("electron", "model_1")].
Proof.
  destruct (precede_deploy_two_domains one_model_store None "/db/tmp" "f81d4fae"
              two_domain_job "ion" "electron"
              {| uq_type := "faiss"; file := "m.pt"; threshold := NFloat (1 # 2) |}
              [] (or_introl eq_refl) eq_refl eq_refl)
    as (fn & obj & km & kn & Hw & Hobj & _).
  exists fn, obj. cbn in Hw. injection Hw as <- <-.
  repeat split; reflexivity.
Defined.

(** ** The pruning checks of the staging jobs *)

Lemma dict_get_set_same {V : Type} (k : string) (v : V) (d : strdict V) :
  dict_get k (dict_set k v d) = Some v.
Proof.
  induction d as [|[k' v'] d IH]; cbn.
  - now rewrite String.eqb_refl.
  - destruct (String.eqb k k') eqn:E; cbn; rewrite E; [reflexivity|exact IH].
Qed.

Lemma dict_get_set_other {V : Type} (k k' : string) (v : V) (d : strdict V) :
  k <> k' -> dict_get k (dict_set k' v d) = dict_get k d.
Proof.
  intros Hneq. induction d as [|[k0 v0] d IH]; cbn.
  - apply String.eqb_neq in Hneq. now rewrite Hneq.
  - destruct (String.eqb k' k0) eqn:E; cbn.
    + apply String.eqb_eq in E. subst k0.
      apply String.eqb_neq in Hneq. now rewrite Hneq.
    + now rewrite IH.
Qed.

Section StagingJobs.

Variable path_exists : string -> bool.
Variables (res : resources_arg) (env : environ_arg) (out err : option string).
Variables (args : list pyval) (kwargs : strdict pyval).
Variables (dest persistent_db_path db_type policy : string) (store : bool).
Variables (src pattern src_type creds : string) (update_models : bool).
Variables (store_dir src_dir dest_dir : string).


(** [AMSFSTempStageJob] alone builds a job when the pruning module is on
    disk and no class is named: the job carries [--class] with [None]. *)
Lemma AMSFSTempStageJob_without_class (path : string) (r : AMSJobResources) :
  path_exists path = true ->
  exists j,
    snd (AMSFSTempStageJob_init path_exists store_dir src_dir dest_dir
           (ResObject r) (AScalar VNone) out err (Some path) None args kwargs)
    = Ok j
    /\ dict_get "--class" (cli_kwargs j) = Some VNone
    /\ dict_get "--load" (cli_kwargs j) = Some (VStr path).
Proof.
  intros Hex. unfold AMSFSTempStageJob_init. rewrite Hex.
  cbn [negb snd]. unfold AMSJob_init. cbn [bind environ_value].
  eexists. split; [reflexivity|].
  cbn [cli_kwargs or_default optional_str]. split.
  - apply dict_get_set_same.
  - rewrite dict_get_set_other by discriminate. apply dict_get_set_same.
Qed.

End StagingJobs.



(** ** Template substitution in the ML job factory *)

Section Formatting.

Variable extended :
  string -> string -> option ascii -> string -> strdict string -> result string.
Variable formatting : strdict string.

Lemma fails_bind {A B : Type} (c : result A) (k : A -> result B) :
  fails c -> fails (bind c k).
Proof. intros [e ->]. exists e. reflexivity. Qed.

Lemma fails_bind_all {A B : Type} (c : result A) (k : A -> result B) :
  (forall a, fails (k a)) -> fails (bind c k).
Proof.
  intros H. destruct c as [a|e]; cbn; [apply H | exists e; reflexivity].
Qed.

Lemma render_field_unknown (f : field) :
  dict_get (field_key f) formatting = None ->
  fails (render_field extended formatting f).
Proof.
  unfold render_field, field_key.
  destruct (split_first (field_name f)) as [first rest]. cbn [fst].
  intros ->.
  destruct (all_digits first); [|eexists; reflexivity].
  destruct (PY_SSIZE_T_MAX <? decimal_value 0 first); eexists; reflexivity.
Qed.

Lemma render_unknown (ts : list token) (k : string) :
  In k (token_keys ts) ->
  dict_get k formatting = None ->
  fails (render extended formatting ts).
Proof.
  intros Hin Hk. induction ts as [|[c|f] ts IH]; cbn in *.
  - contradiction.
  - apply fails_bind. auto.
  - destruct Hin as [<- | Hin].
    + apply fails_bind. now apply render_field_unknown.
    + apply fails_bind_all. intros v. apply fails_bind. auto.
Qed.

(** A template over a key that the keywords do not have does not
    format. *)
Lemma format_unknown (template k : string) :
  In k (template_keys template) ->
  dict_get k formatting = None ->
  fails (format extended formatting template).
Proof.
  unfold template_keys, format.
  destruct (scan InText template) as [ts e]. cbn [fst].
  intros Hin Hk. apply fails_bind. eapply render_unknown; eauto.
Qed.

Lemma format_args_unknown (args : list pyval) (template k : string) :
  In (VStr template) args ->
  In k (template_keys template) ->
  dict_get k formatting = None ->
  fails (format_args extended formatting args).
Proof.
  intros Hin Hk Hnone. induction args as [|a args IH]; [contradiction|].
  destruct Hin as [-> | Hin].
  - cbn. apply fails_bind. eapply format_unknown; eauto.
  - destruct a; cbn; try (eexists; reflexivity).
    apply fails_bind_all. intros v. apply fails_bind. auto.
Qed.

Lemma format_kwargs_unknown (kw : strdict pyval) (flag template k : string) :
  In (flag, VStr template) kw ->
  In k (template_keys template) ->
  dict_get k formatting = None ->
  fails (format_kwargs extended formatting kw).
Proof.
  intros Hin Hk Hnone. induction kw as [|[f v] kw IH]; [contradiction|].
  destruct Hin as [E | Hin].
  - injection E as -> ->. cbn. apply fails_bind. eapply format_unknown; eauto.
  - destruct v; cbn.
    1-3: apply fails_bind; auto.
    apply fails_bind_all. intros s'. apply fails_bind. auto.
Qed.

Lemma format_args_ok (args args' : list pyval) :
  format_args extended formatting args = Ok args' ->
  Forall2 (substituted extended formatting) args args'.
Proof.
  revert args'. induction args as [|a args IH]; intros args'; cbn.
  - intros [= <-]. constructor.
  - destruct a; try discriminate.
    destruct (format extended formatting s) as [s'|] eqn:Es; [cbn|discriminate].
    destruct (format_args extended formatting args) as [l|]; [cbn|discriminate].
    intros [= <-]. constructor; [|now apply IH].
    cbn. exists s'. now split.
Qed.

Lemma format_kwargs_ok (kw kw' : strdict pyval) :
  format_kwargs extended formatting kw = Ok kw' ->
  Forall2 (fun kv kv' => fst kv' = fst kv
                         /\ substituted extended formatting (snd kv) (snd kv'))
          kw kw'.
Proof.
  revert kw'. induction kw as [|[k v] kw IH]; intros kw'; cbn.
  - intros [= <-]. constructor.
  - destruct v.
    1-3: destruct (format_kwargs extended formatting kw) as [l|];
         [cbn|discriminate]; intros [= <-];
         constructor; [now split | now apply IH].
    destruct (format extended formatting s) as [s'|] eqn:Es; [cbn|discriminate].
    destruct (format_kwargs extended formatting kw) as [l|]; [cbn|discriminate].
    intros [= <-]. constructor; [|now apply IH].
    cbn. split; [reflexivity|]. exists s'. now split.
Qed.

Lemma render_field_unknown_key (f : field) :
  dict_get (field_key f) formatting = None ->
  all_digits (field_key f) = false ->
  render_field extended formatting f = Raise KeyError.
Proof.
  unfold render_field, field_key.
  destruct (split_first (field_name f)) as [first rest]. cbn [fst].
  intros -> ->. reflexivity.
Qed.

(** Rendering stops at the first field that does not render. *)
Lemma render_raises (before after : list token) (f : field) (e : exn) :
  succeeds (render extended formatting before) ->
  render_field extended formatting f = Raise e ->
  render extended formatting (before ++ TField f :: after) = Raise e.
Proof.
  intros Hbefore Hf. induction before as [|[c|g] before IH]; cbn.
  - now rewrite Hf.
  - rewrite IH; [reflexivity|].
    destruct Hbefore as [s Hs]. cbn in Hs.
    destruct (render extended formatting before) as [s'|]; [|discriminate].
    eexists. reflexivity.
  - destruct Hbefore as [s Hs]. cbn in Hs.
    destruct (render_field extended formatting g) as [v|]; [cbn [bind] in *|discriminate].
    rewrite IH; [reflexivity|].
    destruct (render extended formatting before) as [s'|]; [|discriminate].
    eexists. reflexivity.
Qed.

(** A template whose first field that does not render names a key that the
    keywords lack raises [KeyError]. *)
Lemma format_raises_KeyError (template : string) (before after : list token)
    (f : field) :
  fst (scan InText template) = before ++ TField f :: after ->
  succeeds (render extended formatting before) ->
  dict_get (field_key f) formatting = None ->
  all_digits (field_key f) = false ->
  format extended formatting template = Raise KeyError.
Proof.
  intros Hscan Hbefore Hkey Hname. unfold format.
  destruct (scan InText template) as [ts e]. cbn [fst] in Hscan. subst ts.
  rewrite (render_raises _ _ _ KeyError Hbefore); [reflexivity|].
  now apply render_field_unknown_key.
Qed.

(** The loops of the factory stop at the first template that does not
    format. *)
Lemma format_kwargs_raises (front back : strdict pyval) (flag template : string)
    (e : exn) :
  succeeds (format_kwargs extended formatting front) ->
  format extended formatting template = Raise e ->
  format_kwargs extended formatting (front ++ (flag, VStr template) :: back)
  = Raise e.
Proof.
  intros Hfront Ht. induction front as [|[k v] front IH]; cbn.
  - now rewrite Ht.
  - destruct Hfront as [l Hl]. cbn in Hl. destruct v.
    1-3: destruct (format_kwargs extended formatting front) as [l'|];
         [|discriminate]; rewrite IH by (eexists; reflexivity); reflexivity.
    destruct (format extended formatting s) as [s'|]; [cbn [bind] in *|discriminate].
    destruct (format_kwargs extended formatting front) as [l'|]; [|discriminate].
    rewrite IH by (eexists; reflexivity). reflexivity.
Qed.

Lemma format_args_raises (front back : list pyval) (template : string) (e : exn) :
  succeeds (format_args extended formatting front) ->
  format extended formatting template = Raise e ->
  format_args extended formatting (front ++ VStr template :: back) = Raise e.
Proof.
  intros Hfront Ht. induction front as [|v front IH]; cbn.
  - now rewrite Ht.
  - destruct Hfront as [l Hl]. cbn in Hl. destruct v; try discriminate.
    destruct (format extended formatting s) as [s'|]; [cbn [bind] in *|discriminate].
    destruct (format_args extended formatting front) as [l'|]; [|discriminate].
    rewrite IH by (eexists; reflexivity). reflexivity.
Qed.

End Formatting.

Lemma formatting_only_key (store : AMSDataStore) (k : string) :
  k <> "AMS_STORE_PATH" -> dict_get k (generate_formatting store) = None.
Proof.
  intros Hk. cbn. apply String.eqb_neq in Hk. now rewrite Hk.
Qed.

(** Counterexample to C7 as stated: a flag value over the key
    [AMS_MODEL_PATH], which the context lacks, makes the factory raise the
    built-in [KeyError] of [str.format], not an error of a class named
    [ConfigurationError]. *)
Lemma from_descr_unknown_key_raises_KeyError :
  In "AMS_MODEL_PATH" (template_keys "{AMS_MODEL_PATH}/models")
  /\ dict_get "AMS_MODEL_PATH" (generate_formatting one_model_store) = None
  /\ from_descr plain_fields_only one_model_store stray_key_descr = Raise KeyError
  /\ KeyError <> UserDefined "ConfigurationError".
Proof. repeat split; try discriminate. now left. Qed.

(** C7, amended: the formatting context of the ML job factory binds
    [AMS_STORE_PATH] to the root path of the store; a job the factory
    builds has every string among the positional arguments and the flag
    values of the description replaced by its formatting against that
    context (other flag values are kept); and when a string among them
    refers to a key other than [AMS_STORE_PATH], the factory fails: no job
    is built with the placeholder left in.  The failure is a built-in
    error of [str.format]: when the factory gets as far as the template
    (the resources are accepted and what is formatted before it formats)
    and the first field of the template that does not render names a key,
    not a number, that the context lacks, it is [KeyError]. *)
Theorem from_descr_substitutes
    (extended : string -> string -> option ascii -> string -> strdict string
                -> result string)
    (store : AMSDataStore) (descr : ml_descr) (cli : cli_descr)
    (Hcli : descr_cli descr = Some cli) :
  dict_get "AMS_STORE_PATH" (generate_formatting store) = Some (root_path store)
  /\ (forall mj : AMSMLJob,
         from_descr extended store descr = Ok mj ->
         (forall args, cli_cli_args cli = Some args ->
            Forall2 (substituted extended (generate_formatting store))
                    args (cli_args (ml_job mj)))
         /\ (forall kw, cli_cli_kwargs cli = Some kw ->
               Forall2 (fun kv kv' =>
                          fst kv' = fst kv
                          /\ substituted extended (generate_formatting store)
                                         (snd kv) (snd kv'))
                       kw (cli_kwargs (ml_job mj))))
  /\ (forall template k : string,
         (exists args, cli_cli_args cli = Some args /\ In (VStr template) args)
         \/ (exists kw flag, cli_cli_kwargs cli = Some kw
                             /\ In (flag, VStr template) kw) ->
         In k (template_keys template) ->
         k <> "AMS_STORE_PATH" ->
         fails (from_descr extended store descr))
  /\ (forall rd kw front flag template back before f after,
         descr_resources descr = Some rd ->
         succeeds (AMSJobResources_init rd) ->
         cli_cli_kwargs cli = Some kw ->
         kw = front ++ (flag, VStr template) :: back ->
         succeeds (format_kwargs extended (generate_formatting store) front) ->
         fst (scan InText template) = before ++ TField f :: after ->
         succeeds (render extended (generate_formatting store) before) ->
         field_key f <> "AMS_STORE_PATH" ->
         all_digits (field_key f) = false ->
         from_descr extended store descr = Raise KeyError)
  /\ (forall rd args front template back before f after,
         descr_resources descr = Some rd ->
         succeeds (AMSJobResources_init rd) ->
         succeeds (optionally (format_kwargs extended (generate_formatting store))
                              (cli_cli_kwargs cli)) ->
         cli_cli_args cli = Some args ->
         args = front ++ VStr template :: back ->
         succeeds (format_args extended (generate_formatting store) front) ->
         fst (scan InText template) = before ++ TField f :: after ->
         succeeds (render extended (generate_formatting store) before) ->
         field_key f <> "AMS_STORE_PATH" ->
         all_digits (field_key f) = false ->
         from_descr extended store descr = Raise KeyError).
Proof.
  split; [reflexivity|]. split; [|split; [|split]].
  - intros mj. unfold from_descr. rewrite Hcli.
    destruct (descr_resources descr) as [rd|]; [cbn [getitem bind]|discriminate].
    destruct (AMSJobResources_init rd) as [r|]; [cbn [bind]|discriminate].
    destruct (optionally _ (cli_cli_kwargs cli)) as [okw|] eqn:Ekw;
      [cbn [bind]|discriminate].
    destruct (optionally _ (cli_cli_args cli)) as [oargs|] eqn:Eargs;
      [cbn [bind]|discriminate].
    destruct (descr_domain_name descr); [cbn [getitem bind]|discriminate].
    destruct (descr_name descr); [cbn [getitem bind]|discriminate].
    destruct (cli_executable cli); [cbn [getitem bind]|discriminate].
    unfold AMSJob_init. cbn [bind environ_value]. intros [= <-].
    cbn [ml_job cli_args cli_kwargs]. split.
    + intros args Hargs. rewrite Hargs in Eargs. cbn in Eargs.
      destruct (format_args _ _ args) as [l|] eqn:El; [|discriminate].
      cbn in Eargs. injection Eargs as <-. cbn.
      now apply format_args_ok.
    + intros kw Hkw. rewrite Hkw in Ekw. cbn in Ekw.
      destruct (format_kwargs _ _ kw) as [l|] eqn:El; [|discriminate].
      cbn in Ekw. injection Ekw as <-. cbn.
      now apply format_kwargs_ok.
  - intros template k Hwhere Hin Hk.
    pose proof (formatting_only_key store k Hk) as Hnone.
    unfold from_descr. rewrite Hcli.
    apply fails_bind_all. intros rd.
    apply fails_bind_all. intros r. cbn [getitem bind].
    destruct Hwhere as [(args & Hargs & Hmem) | (kw & flag & Hkw & Hmem)].
    + apply fails_bind_all. intros okw. apply fails_bind.
      rewrite Hargs. cbn. apply fails_bind.
      eapply format_args_unknown; eauto.
    + apply fails_bind. rewrite Hkw. cbn. apply fails_bind.
      eapply format_kwargs_unknown; eauto.
  - intros rd kw front flag template back before f after
           Hrd [r Hr] Hkw -> Hfront Hscan Hbefore Hkey Hname.
    unfold from_descr. rewrite Hrd, Hcli. cbn [getitem bind].
    rewrite Hr. cbn [bind]. rewrite Hkw. cbn [optionally].
    rewrite (format_kwargs_raises _ _ _ _ _ _ KeyError Hfront); [reflexivity|].
    eapply format_raises_KeyError; eauto.
    now apply formatting_only_key.
  - intros rd args front template back before f after
           Hrd [r Hr] [okw Hokw] Hargs -> Hfront Hscan Hbefore Hkey Hname.
    unfold from_descr. rewrite Hrd, Hcli. cbn [getitem bind].
    rewrite Hr. cbn [bind]. rewrite Hokw. cbn [bind].
    rewrite Hargs. cbn [optionally].
    rewrite (format_args_raises _ _ _ _ _ KeyError Hfront); [reflexivity|].
    eapply format_raises_KeyError; eauto.
    now apply formatting_only_key.
Qed.

Lemma from_descr_substitutes_witness :
  from_descr plain_fields_only one_model_store stray_key_descr = Raise KeyError
  /\ fails (from_descr plain_fields_only one_model_store stray_key_descr)
  /\ exists mj,
      from_descr plain_fields_only one_model_store train_descr = Ok mj
      /\ cli_args (ml_job mj) = [VStr "fit.py"; VStr "/db/data"]
      /\ cli_kwargs (ml_job mj) = [("--out", VStr "/db/models"); ("--epochs", VInt 3)].
Proof.
  split; [|split].
  - refine (proj1 (proj2 (proj2 (proj2
              (from_descr_substitutes plain_fields_only one_model_store
                 stray_key_descr _ eq_refl))))
              _ _ [] "--out" "{AMS_MODEL_PATH}/models" [] []
              {| field_name := "AMS_MODEL_PATH"; conversion := None;
                 format_spec := "" |}
              _ eq_refl _ eq_refl eq_refl _ eq_refl _ _ eq_refl).
    + eexists. reflexivity.
    + eexists. reflexivity.
    + eexists. reflexivity.
    + discriminate.
  - refine (proj1 (proj2 (proj2 (from_descr_substitutes plain_fields_only
                                   one_model_store stray_key_descr _ eq_refl)))
              "{AMS_MODEL_PATH}/models" "AMS_MODEL_PATH" _ _ _).
    + right. eexists. exists "--out". split; [reflexivity|]. left. reflexivity.
    + left. reflexivity.
    + discriminate.
  - eexists. repeat split.
Defined.

(** ** Jobs without an environment *)

Lemma AMSJob_init_environ_none (name executable : string)
    (res : resources_arg) (out err : option string) (log : bool)
    (mpi : option bool) (args : option (list pyval))
    (kwargs : option (strdict pyval)) (j : AMSJob) :
  AMSJob_init name executable (AScalar VNone) res out err log mpi args kwargs = Ok j ->
  environ j = None.
Proof.
  unfold AMSJob_init. step_bind; [|discriminate].
  cbn. intros [= <-]. reflexivity.
Qed.

(** The ML job factory gives its jobs no environment. *)
Lemma from_descr_environ_none
    (extended : string -> string -> option ascii -> string -> strdict string
                -> result string)
    (store : AMSDataStore) (descr : ml_descr) (mj : AMSMLJob) :
  from_descr extended store descr = Ok mj -> environ (ml_job mj) = None.
Proof.
  unfold from_descr.
  repeat (step_bind; [|discriminate]).
  intros [= <-]. cbn [ml_job].
  eapply AMSJob_init_environ_none; eassumption.
Qed.

(** A staging job built without an [environ] argument has none either. *)
Lemma AMSStageJob_environ_none (path_exists : string -> bool)
    (res : resources_arg) (dest persistent_db_path : string) (store : bool)
    (db_type policy : string) (prune_module_path prune_class : option string)
    (out err : option string) (args : list pyval) (kwargs : strdict pyval)
    (j : AMSJob) :
  snd (AMSStageJob_init path_exists res dest persistent_db_path store db_type
         policy prune_module_path prune_class (AScalar VNone) out err args kwargs)
  = Ok j ->
  environ j = None.
Proof.
  unfold AMSStageJob_init.
  destruct prune_module_path as [path|]; cbn [snd].
  - destruct (path_exists path); cbn [negb snd]; [|discriminate].
    destruct prune_class; cbn [snd]; [|discriminate].
    apply AMSJob_init_environ_none.
  - apply AMSJob_init_environ_none.
Qed.

(** C9: a job may have [None] for environment: the setter stores it, the
    ML job factory passes it and a staging job built without an environment
    has it.  Such a job never lowers to a specification, and whenever the
    same job with an environment lowers, the failure is the [TypeError] of
    copying [None]. *)
Theorem to_flux_jobspec_none_environ (lib : flux_library) (cwd : string)
    (j : AMSJob) (Henv : environ j = None) :
  set_environ (AScalar VNone) j = Ok j
  /\ (forall extended store descr mj,
         from_descr extended store descr = Ok mj -> environ (ml_job mj) = None)
  /\ (forall path_exists res dest persistent_db_path store db_type policy
             prune_module_path prune_class out err args kwargs sj,
         snd (AMSStageJob_init path_exists res dest persistent_db_path store
                db_type policy prune_module_path prune_class (AScalar VNone)
                out err args kwargs)
         = Ok sj ->
         environ sj = None)
  /\ fails (to_flux_jobspec lib cwd j)
  /\ (forall env : pydict,
         succeeds (to_flux_jobspec lib cwd (with_environ (Some env) j)) ->
         to_flux_jobspec lib cwd j = Raise TypeError).
Proof.
  split; [|split; [|split; [|split]]].
  - unfold set_environ. cbn. rewrite <- Henv. now rewrite with_environ_same.
  - apply from_descr_environ_none.
  - intros. eapply AMSStageJob_environ_none; eassumption.
  - rewrite <- (with_environ_same j), to_flux_jobspec_with_environ, Henv.
    unfold fails. cbn [dict_copy].
    destruct (jobspec_before_environ lib j); cbn [bind]; eexists; reflexivity.
  - intros env [spec Hspec].
    rewrite <- (with_environ_same j), to_flux_jobspec_with_environ, Henv.
    rewrite to_flux_jobspec_with_environ in Hspec.
    destruct (jobspec_before_environ lib j); [reflexivity|discriminate].
Qed.

Lemma to_flux_jobspec_none_environ_witness :
  to_flux_jobspec checking_library "/work" (with_environ None serial_job)
  = Raise TypeError.
Proof.
  refine (proj2 (proj2 (proj2 (proj2
            (to_flux_jobspec_none_environ checking_library "/work"
               (with_environ None serial_job) eq_refl)))) [] _).
  eexists. reflexivity.
Defined.

(** * Further properties *)

(** ** Resources and the base constructor *)

Lemma fields_membership (k : string) :
  existsb (String.eqb k) AMSJobResources_fields = true
  <-> In k AMSJobResources_fields.
Proof.
  rewrite existsb_exists. split.
  - intros (x & Hin & E). apply String.eqb_eq in E. now subst.
  - intros Hin. exists k. split; [assumption | apply String.eqb_refl].
Qed.

Lemma forallb_false_exists {A : Type} (f : A -> bool) (l : list A) :
  forallb f l = false -> exists x, In x l /\ f x = false.
Proof.
  induction l as [|a l IH]; cbn; [discriminate|].
  destruct (f a) eqn:Ea; cbn.
  - intros H. destruct (IH H) as (x & Hin & Hx). exists x. auto.
  - intros _. exists a. auto.
Qed.

Lemma AMSJobResources_init_raises (kw : strdict pyval) (e : exn) :
  AMSJobResources_init kw = Raise e -> e = TypeError.
Proof.
  unfold AMSJobResources_init.
  destruct (forallb _ (dict_keys kw)); cbn [negb].
  - destruct (dict_get "nodes" kw), (dict_get "tasks_per_node" kw);
      intros [= <-]; reflexivity.
  - intros [= <-]. reflexivity.
Qed.

(** X1: the resources constructor raises exactly when a keyword is no
    field of the dataclass or when [nodes] or [tasks_per_node] is missing,
    and what it raises is a [TypeError]; given just the two counts it fills
    in one core per task, exclusive use and no GPU. *)
Theorem AMSJobResources_init_errors (kw : strdict pyval) :
  (fails (AMSJobResources_init kw)
   <-> (exists k, In k (dict_keys kw) /\ ~ In k AMSJobResources_fields)
       \/ dict_get "nodes" kw = None
       \/ dict_get "tasks_per_node" kw = None)
  /\ (forall e, AMSJobResources_init kw = Raise e -> e = TypeError)
  /\ (forall n t,
         AMSJobResources_init [("nodes", n); ("tasks_per_node", t)]
         = Ok {| nodes := n; tasks_per_node := t; cores_per_task := VInt 1;
                 exclusive := VBool true; gpus_per_task := VInt 0 |}).
Proof.
  assert (Hkeys : forallb (fun k => existsb (String.eqb k) AMSJobResources_fields)
                          (dict_keys kw) = true
                  <-> (forall k, In k (dict_keys kw) -> In k AMSJobResources_fields)).
  { rewrite forallb_forall. split; intros H k Hin; apply fields_membership; auto. }
  split; [|split].
  - unfold AMSJobResources_init, fails. split.
    + destruct (forallb _ (dict_keys kw)) eqn:Hall; cbn [negb].
      * destruct (dict_get "nodes" kw), (dict_get "tasks_per_node" kw);
          intros [e He]; try discriminate; auto.
      * intros _. left.
        destruct (forallb_false_exists _ _ Hall) as (k & Hin & Hk).
        exists k. split; [assumption|]. intros Hf. apply fields_membership in Hf.
        rewrite Hf in Hk. discriminate.
    + intros Hbad.
      destruct (forallb _ (dict_keys kw)) eqn:Hall; cbn [negb];
        [|eexists; reflexivity].
      destruct Hbad as [(k & Hin & Hno) | [-> | Hn]].
      * elim Hno. now apply Hkeys.
      * eexists. reflexivity.
      * rewrite Hn. destruct (dict_get "nodes" kw); eexists; reflexivity.
  - apply AMSJobResources_init_raises.
  - reflexivity.
Qed.

(** X2: the base constructor fails exactly when it is given a [dict] of
    resources that the resources constructor rejects, or an environment that
    is neither [None], a [dict] nor an [os.environ] object.  The resources
    are converted first: a bad [dict] of resources gives a [TypeError]
    whatever the environment is, and a bad environment gives a
    [RuntimeError] only when the resources went through. *)
Theorem AMSJob_init_errors (n exe : string) (env : environ_arg)
    (res : resources_arg) (out err : option string) (log : bool)
    (mpi : option bool) (args : option (list pyval))
    (kwargs : option (strdict pyval)) :
  (fails (AMSJob_init n exe env res out err log mpi args kwargs)
   <-> (exists d, res = ResDict d /\ fails (AMSJobResources_init d))
       \/ none_dict_or_environ env = false)
  /\ (forall d, res = ResDict d -> fails (AMSJobResources_init d) ->
        AMSJob_init n exe env res out err log mpi args kwargs = Raise TypeError)
  /\ (none_dict_or_environ env = false ->
      (forall d, res = ResDict d -> succeeds (AMSJobResources_init d)) ->
      AMSJob_init n exe env res out err log mpi args kwargs = Raise RuntimeError).
Proof.
  assert (Henv : forall v : environ_arg,
             (none_dict_or_environ v = false -> environ_value v = Raise RuntimeError)
             /\ (none_dict_or_environ v = true -> succeeds (environ_value v))).
  { intros [[]| | | |]; cbn; split; intros H; try discriminate;
      try reflexivity; eexists; reflexivity. }
  unfold AMSJob_init. split; [|split].
  - split.
    + intros [e He].
      destruct res as [|r|d]; cbn [bind] in He.
      * right. destruct (none_dict_or_environ env) eqn:E; [|reflexivity].
        destruct (proj2 (Henv env) E) as [v Hv]. rewrite Hv in He. discriminate.
      * right. destruct (none_dict_or_environ env) eqn:E; [|reflexivity].
        destruct (proj2 (Henv env) E) as [v Hv]. rewrite Hv in He. discriminate.
      * destruct (AMSJobResources_init d) as [r|e'] eqn:Er; cbn [bind] in He.
        -- right. destruct (none_dict_or_environ env) eqn:E; [|reflexivity].
           destruct (proj2 (Henv env) E) as [v Hv]. rewrite Hv in He. discriminate.
        -- left. exists d. split; [reflexivity|]. exists e'. exact Er.
    + intros [(d & -> & [e He]) | Hbad].
      * rewrite He. exists e. reflexivity.
      * rewrite (proj1 (Henv env) Hbad).
        destruct res as [|r|d]; cbn [bind]; try (eexists; reflexivity).
        destruct (AMSJobResources_init d); cbn [bind]; eexists; reflexivity.
  - intros d -> [e He]. rewrite He. cbn [bind].
    now rewrite (AMSJobResources_init_raises _ _ He).
  - intros Hbad Hres. rewrite (proj1 (Henv env) Hbad).
    destruct res as [|r|d]; cbn [bind]; try reflexivity.
    destruct (Hres d eq_refl) as [r ->]. reflexivity.
Qed.

(** ** Serialisation *)

(** X3: a serialised job survives a round trip: [to_dict] of the job that
    [from_dict] rebuilds from [to_dict(job)] is [to_dict(job)] again, and a
    job without resources fails all the way with the same
    [AttributeError]. *)
Theorem to_dict_from_dict_to_dict (default_environ : pydict) (j : AMSJob) :
  (d <- to_dict j ;; j' <- from_dict default_environ d ;; to_dict j') = to_dict j.
Proof.
  unfold to_dict at 1 3.
  destruct (resources j) as [r|] eqn:Hres; [|reflexivity].
  cbn [bind]. unfold from_dict.
  cbn [d_unexpected d_name d_executable d_environ d_resources
    d_stdout d_stderr d_ams_log d_is_mpi d_cli_args d_cli_kwargs or_default].
  unfold AMSJob_init. rewrite AMSJobResources_roundtrip. cbn [bind environ_value].
  reflexivity.
Qed.

(** X4: [from_dict] builds a job from a dictionary that names no
    resources, and that job can be neither serialised nor lowered: [to_dict]
    and [to_flux_jobspec] both fail on it, [to_dict] with the
    [AttributeError] of [None.to_dict()]. *)
Theorem from_dict_without_resources (default_environ : pydict) (d : job_dict)
    (j : AMSJob) (lib : flux_library) (cwd : string)
    (Hres : d_resources d = None \/ d_resources d = Some ResNone)
    (Hjob : from_dict default_environ d = Ok j) :
  resources j = None
  /\ to_dict j = Raise AttributeError
  /\ fails (to_flux_jobspec lib cwd j).
Proof.
  assert (Hnone : resources j = None).
  { revert Hjob. unfold from_dict.
    destruct (d_unexpected d); [|discriminate].
    destruct (d_name d); [|discriminate].
    destruct (d_executable d); [|discriminate].
    unfold AMSJob_init.
    replace (or_default (d_resources d) ResNone) with ResNone
      by (destruct Hres as [-> | ->]; reflexivity).
    cbn [bind].
    destruct (environ_value _); [cbn [bind]|discriminate].
    intros [= <-]. reflexivity. }
  split; [assumption|]. split.
  - unfold to_dict. now rewrite Hnone.
  - unfold to_flux_jobspec, generate_cli_command, resources_attr, fails.
    rewrite Hnone.
    destruct (dict_mem "executable" (cli_kwargs j)); cbn [bind]; eexists; reflexivity.
Qed.

Lemma from_dict_without_resources_witness :
  from_dict [] unsized_dict = Ok unsized_job
  /\ to_dict unsized_job = Raise AttributeError.
Proof.
  split; [reflexivity|].
  exact (proj1 (proj2 (from_dict_without_resources [] unsized_dict unsized_job
                         checking_library "/work" (or_introl eq_refl) eq_refl))).
Defined.

(** ** Lowering to a job specification, continued *)

(** The converse of the inversion: what is enough for [to_flux_jobspec] to
    return.  The library is asked about the two paths of the job and, where
    the job names no file, about the default names as well. *)
Lemma to_flux_jobspec_complete (lib : flux_library) (cwd : string) (j : AMSJob)
    (r : AMSJobResources) (env : pydict) (num_tasks : pyval) :
  resources j = Some r ->
  environ j = Some env ->
  dict_mem "executable" (cli_kwargs j) = false ->
  py_mul (tasks_per_node r) (nodes r) = Ok num_tasks ->
  from_command_check lib
    (constuct_cli_cmd (executable j) (cli_args j) (cli_kwargs j))
    num_tasks (nodes r) (cores_per_task r) (gpus_per_task r) (exclusive r)
  = None ->
  io_path_check lib (stdout j) = None ->
  io_path_check lib (stderr j) = None ->
  io_path_check lib (Some (or_default (stdout j) "ams_test.out")) = None ->
  io_path_check lib (Some (or_default (stderr j) "ams_test.err")) = None ->
  succeeds (to_flux_jobspec lib cwd j).
Proof.
  intros Hr He Hk Hm Hc Ho1 He1 Ho2 He2.
  unfold to_flux_jobspec, generate_cli_command, resources_attr, from_command.
  rewrite Hk, Hr. cbn [bind]. rewrite Hm. cbn [bind]. rewrite Hc, He.
  cbn [bind dict_copy].
  destruct (is_mpi j), (gpus_per_task r), (stdout j) as [out|], (stderr j) as [err|];
    unfold set_stdout, set_stderr; cbn in *;
    rewrite ?Ho1, ?He1, ?Ho2, ?He2; cbn;
    rewrite ?Ho1, ?He1, ?Ho2, ?He2; cbn;
    rewrite ?Ho1, ?He1, ?Ho2, ?He2; cbn;
    rewrite ?Ho1, ?He1, ?Ho2, ?He2; cbn;
    eexists; reflexivity.
Qed.

(** X5: when [to_flux_jobspec] returns a specification, the job has
    resources and an environment and no flag spelled [executable]; the
    specification holds the command of the job, the product of the tasks
    per node and the nodes as task count, the other resource fields as they
    are, the shell options [mpi] (when [is_mpi] is not [None]) then
    [gpu-affinity] (when the GPU count is not [None]) and no other,
    [ams_test.out] and [ams_test.err] where the job names no file, a copy of
    the environment and the current directory. *)
Theorem to_flux_jobspec_result (lib : flux_library) (cwd : string) (j : AMSJob)
    (spec : JobspecV1) (Hspec : to_flux_jobspec lib cwd j = Ok spec) :
  exists (r : AMSJobResources) (env : pydict),
    resources j = Some r
    /\ environ j = Some env
    /\ dict_mem "executable" (cli_kwargs j) = false
    /\ spec_command spec = constuct_cli_cmd (executable j) (cli_args j) (cli_kwargs j)
    /\ py_mul (tasks_per_node r) (nodes r) = Ok (spec_num_tasks spec)
    /\ spec_num_nodes spec = nodes r
    /\ spec_cores_per_task spec = cores_per_task r
    /\ spec_gpus_per_task spec = gpus_per_task r
    /\ spec_exclusive spec = exclusive r
    /\ spec_shell_options spec
       = match is_mpi j with
         | Some _ => [("mpi", "spectrum")]
         | None => []
         end
         ++ match gpus_per_task r with
            | VNone => []
            | _ => [("gpu-affinity", "per-task")]
            end
    /\ spec_stdout spec = Some (or_default (stdout j) "ams_test.out")
    /\ spec_stderr spec = Some (or_default (stderr j) "ams_test.err")
    /\ spec_environment spec = Some env
    /\ spec_cwd spec = Some cwd.
Proof.
  destruct (to_flux_jobspec_inversion _ _ _ _ Hspec)
    as (r & env & num_tasks & Hr & He & Hk & Hm & _ & _ & _ & ->).
  exists r, env.
  cbn [spec_command spec_num_tasks spec_num_nodes spec_cores_per_task
       spec_gpus_per_task spec_exclusive spec_shell_options spec_stdout
       spec_stderr spec_environment spec_cwd].
  repeat split; assumption || reflexivity.
Qed.

Lemma to_flux_jobspec_result_witness :
  exists spec,
    to_flux_jobspec checking_library "/work" serial_job = Ok spec
    /\ spec_command spec = ["run"; "--x"; "1"; "a"; "b"]
    /\ spec_shell_options spec = [("mpi", "spectrum"); ("gpu-affinity", "per-task")]
    /\ spec_stderr spec = Some "post.err".
Proof.
  assert (to_flux_jobspec checking_library "/work" serial_job = Ok
    {| spec_command := ["run"; "--x"; "1"; "a"; "b"];
       spec_num_tasks := VInt 6; spec_num_nodes := VInt 2;
       spec_cores_per_task := VInt 1; spec_gpus_per_task := VInt 0;
       spec_exclusive := VBool true;
       spec_shell_options := [("mpi", "spectrum"); ("gpu-affinity", "per-task")];
       spec_stdout := Some "post.out"; spec_stderr := Some "post.err";
       spec_environment := Some [];
       spec_cwd := Some "/work" |}) as H by reflexivity.
  eexists; split; [exact H|].
  destruct (to_flux_jobspec_result _ _ _ _ H)
    as (r & env & Hr & _ & _ & Hc & _ & _ & _ & _ & _ & Hs & _ & He & _).
  injection Hr as <-.
  split; [exact Hc|]. split; [exact Hs | exact He].
Defined.

(** X6: the job's own [stdout] and [stderr] are assigned to the
    specification before the default file names are, so with a library
    that rejects [None] as a path a job that names no output file, or no
    error file, never lowers; when everything up to the assignment went
    through, the error is the one the library raises for [None]. *)
Theorem to_flux_jobspec_null_path (lib : flux_library) (cwd : string)
    (j : AMSJob) (e : exn)
    (Hlib : io_path_check lib None = Some e)
    (Hnull : stdout j = None \/ stderr j = None) :
  fails (to_flux_jobspec lib cwd j)
  /\ (forall r num_tasks,
         dict_mem "executable" (cli_kwargs j) = false ->
         resources j = Some r ->
         py_mul (tasks_per_node r) (nodes r) = Ok num_tasks ->
         from_command_check lib
           (constuct_cli_cmd (executable j) (cli_args j) (cli_kwargs j))
           num_tasks (nodes r) (cores_per_task r) (gpus_per_task r) (exclusive r)
         = None ->
         stdout j = None ->
         to_flux_jobspec lib cwd j = Raise e).
Proof.
  split.
  - destruct (to_flux_jobspec lib cwd j) as [spec|e'] eqn:E;
      [|exists e'; reflexivity].
    destruct (to_flux_jobspec_inversion _ _ _ _ E)
      as (r & env & num_tasks & _ & _ & _ & _ & _ & Ho & He & _).
    destruct Hnull as [H | H]; rewrite H in *; congruence.
  - intros r num_tasks Hk Hr Hm Hc Hout.
    unfold to_flux_jobspec, generate_cli_command, resources_attr, from_command.
    rewrite Hk, Hr. cbn [bind]. rewrite Hm. cbn [bind]. rewrite Hc, Hout.
    cbn [bind]. unfold set_stdout at 1.
    destruct (is_mpi j), (gpus_per_task r); rewrite Hlib; reflexivity.
Qed.

Lemma to_flux_jobspec_null_path_witness :
  stderr train_job = None
  /\ fails (to_flux_jobspec checking_library "/work" train_job).
Proof.
  split; [reflexivity|].
  exact (proj1 (to_flux_jobspec_null_path checking_library "/work" train_job
                  TypeError eq_refl (or_intror eq_refl))).
Defined.

(** X7: with a library that accepts what it is given, [to_flux_jobspec]
    returns a specification exactly when the job has resources whose task
    and node counts multiply, an environment that is not [None], and no
    flag spelled [executable]. *)
Theorem to_flux_jobspec_succeeds_iff (lib : flux_library) (cwd : string)
    (j : AMSJob)
    (Hcommand : forall c t n p g x, from_command_check lib c t n p g x = None)
    (Hpath : forall p, io_path_check lib p = None) :
  succeeds (to_flux_jobspec lib cwd j)
  <-> (exists r, resources j = Some r
                 /\ succeeds (py_mul (tasks_per_node r) (nodes r)))
      /\ environ j <> None
      /\ dict_mem "executable" (cli_kwargs j) = false.
Proof.
  split.
  - intros [spec Hspec].
    destruct (to_flux_jobspec_inversion _ _ _ _ Hspec)
      as (r & env & num_tasks & Hr & He & Hk & Hm & _).
    split; [|split].
    + exists r. split; [assumption|]. exists num_tasks. assumption.
    + rewrite He. discriminate.
    + assumption.
  - intros [(r & Hr & [num_tasks Hm]) [He Hk]].
    destruct (environ j) as [env|] eqn:Eenv; [|now elim He].
    eapply to_flux_jobspec_complete; eauto.
Qed.

Lemma to_flux_jobspec_succeeds_iff_witness :
  succeeds (to_flux_jobspec accepting_library "/work" train_job).
Proof.
  apply (proj2 (to_flux_jobspec_succeeds_iff accepting_library "/work" train_job
                  (fun _ _ _ _ _ _ => eq_refl) (fun _ => eq_refl))).
  split; [|split].
  - eexists. split; [reflexivity|]. eexists. reflexivity.
  - discriminate.
  - reflexivity.
Defined.

(** ** The artifact of a domain job, for any list of domains *)

Lemma string_of_nat_inj (a b : nat) : string_of_nat a = string_of_nat b -> a = b.
Proof.
  assert (Hnil : forall n, Nat.to_uint n <> Decimal.Nil).
  { intros n. rewrite <- (DecimalNat.Unsigned.of_to n) at 1.
    rewrite DecimalNat.Unsigned.to_of. apply DecimalFacts.unorm_nonnil. }
  unfold string_of_nat. intros H.
  apply DecimalNat.Unsigned.to_uint_inj.
  pose proof (NilZero.usu _ (Hnil a)) as Ha.
  pose proof (NilZero.usu _ (Hnil b)) as Hb.
  rewrite H in Ha. rewrite Ha in Hb. now injection Hb.
Qed.

Lemma model_key_inj (a b : nat) : model_key a = model_key b -> a = b.
Proof.
  unfold model_key. cbn. intros H. injection H as H.
  now apply string_of_nat_inj.
Qed.

Lemma dict_set_fresh {V : Type} (k : string) (v : V) (d : strdict V) :
  dict_get k d = None -> dict_set k v d = d ++ [(k, v)].
Proof.
  induction d as [|[k' v'] d IH]; cbn; [reflexivity|].
  destruct (String.eqb k k'); [discriminate|].
  intros H. now rewrite IH.
Qed.

Lemma dict_get_app_fresh {V : Type} (k k' : string) (v : V) (d : strdict V) :
  k <> k' -> dict_get k (d ++ [(k', v)]) = dict_get k d.
Proof.
  intros Hneq. induction d as [|[k0 v0] d IH]; cbn.
  - apply String.eqb_neq in Hneq. now rewrite Hneq.
  - now rewrite IH.
Qed.

Section ArtifactLoop.

Variable store : AMSDataStore.

Lemma loop_db (l : list (nat * string)) (obj : ams_object) :
  db (fold_left
        (fun obj i_name =>
       {| db := db obj;
          ml_models := dict_set (model_key (fst i_name))
                                (model_entry_of store (snd i_name))
                                (ml_models obj);
          domain_models := dict_set (snd i_name) (model_key (fst i_name))
                                    (domain_models obj) |})
        l obj)
  = db obj.
Proof.
  revert obj. induction l as [|x l IH]; intros obj; cbn -[model_key]; [reflexivity|].
  now rewrite IH.
Qed.

Lemma loop_ml_models (names : list string) :
  forall (a : nat) (obj : ams_object),
    (forall i, (a <= i)%nat -> dict_get (model_key i) (ml_models obj) = None) ->
    ml_models
      (fold_left
         (fun obj i_name =>
          {| db := db obj;
             ml_models := dict_set (model_key (fst i_name))
                                   (model_entry_of store (snd i_name))
                                   (ml_models obj);
             domain_models := dict_set (snd i_name) (model_key (fst i_name))
                                       (domain_models obj) |})
         (combine (seq a (length names)) names) obj)
    = ml_models obj
      ++ map (fun i_name => (model_key (fst i_name), model_entry_of store (snd i_name)))
             (combine (seq a (length names)) names).
Proof.
  induction names as [|n rest IH]; intros a obj Hfresh; cbn -[model_key].
  - now rewrite app_nil_r.
  - rewrite IH.
    + cbn -[model_key]. rewrite dict_set_fresh by (apply Hfresh; lia).
      now rewrite <- app_assoc.
    + intros i Hi. cbn -[model_key]. rewrite dict_set_fresh by (apply Hfresh; lia).
      rewrite dict_get_app_fresh.
      * apply Hfresh. lia.
      * intros E. apply model_key_inj in E. lia.
Qed.

Lemma entries_lookup (names : list string) :
  forall (a i : nat),
    dict_get (model_key (a + i))
      (map (fun i_name => (model_key (fst i_name), model_entry_of store (snd i_name)))
           (combine (seq a (length names)) names))
    = option_map (model_entry_of store) (nth_error names i).
Proof.
  induction names as [|n rest IH]; intros a i; cbn -[model_key].
  - now destruct i.
  - destruct i as [|i]; cbn -[model_key].
    + rewrite Nat.add_0_r. now rewrite String.eqb_refl.
    + assert (E : String.eqb (model_key (a + S i)) (model_key a) = false).
      { apply String.eqb_neq. intros E. apply model_key_inj in E. lia. }
      rewrite E. replace (a + S i)%nat with (S a + i)%nat by lia. apply IH.
Qed.

Lemma loop_domain_models (names : list string) (name : string) :
  forall (a : nat) (obj : ams_object),
    dict_get name
      (domain_models
         (fold_left
            (fun obj i_name =>
             {| db := db obj;
                ml_models := dict_set (model_key (fst i_name))
                                      (model_entry_of store (snd i_name))
                                      (ml_models obj);
                domain_models := dict_set (snd i_name) (model_key (fst i_name))
                                          (domain_models obj) |})
            (combine (seq a (length names)) names) obj))
    = match last_index name names with
      | Some i => Some (model_key (a + i))
      | None => dict_get name (domain_models obj)
      end.
Proof.
  induction names as [|n rest IH]; intros a obj; cbn -[model_key]; [reflexivity|].
  rewrite IH. destruct (last_index name rest) as [i|].
  - do 2 f_equal. lia.
  - cbn -[model_key]. destruct (String.eqb name n) eqn:E.
    + apply String.eqb_eq in E. subst n. rewrite dict_get_set_same.
      do 2 f_equal. lia.
    + apply String.eqb_neq in E. now rewrite dict_get_set_other.
Qed.

End ArtifactLoop.

Lemma last_index_spec (name : string) (names : list string) (i : nat) :
  last_index name names = Some i
  <-> nth_error names i = Some name
      /\ (forall k, (i < k)%nat -> nth_error names k <> Some name).
Proof.
  revert i. induction names as [|n rest IH]; intros i; cbn.
  - split; [discriminate|]. intros [H _]. now destruct i.
  - destruct (last_index name rest) as [m|] eqn:Em.
    + split.
      * intros [= <-]. destruct (proj1 (IH m) eq_refl) as [Hn Hlast].
        split; [exact Hn|].
        intros k Hk. destruct k as [|k]; [lia|]. cbn. apply Hlast. lia.
      * intros [Hn Hlast]. destruct i as [|i].
        -- exfalso. destruct (proj1 (IH m) eq_refl) as [Hm _].
           apply (Hlast (S m)); [lia | exact Hm].
        -- cbn in Hn.
           assert (Hi : Some m = Some i); [|injection Hi as ->; reflexivity].
           apply IH. split; [exact Hn|].
           intros k Hk. apply (Hlast (S k)). lia.
    + assert (Hnot : forall k, nth_error rest k <> Some name).
      { intros k Hk.
        assert (Hex : exists m, last_index name rest = Some m).
        { clear IH Em. revert k Hk.
          induction rest as [|x rest IHr]; intros k Hk; [now destruct k|].
          cbn. destruct k as [|k]; cbn in Hk.
          - injection Hk as ->. destruct (last_index name rest); eauto.
            rewrite String.eqb_refl. eauto.
          - destruct (IHr k Hk) as [m ->]. eauto. }
        destruct Hex as [m Hm]. congruence. }
      destruct (String.eqb name n) eqn:E.
      * apply String.eqb_eq in E. subst n. split.
        -- intros [= <-]. split; [reflexivity|].
           intros k Hk. destruct k as [|k]; [lia|]. cbn. apply Hnot.
        -- intros [Hn _]. destruct i as [|i]; [reflexivity|].
           cbn in Hn. now elim (Hnot i).
      * split; [discriminate|]. intros [Hn _].
        destruct i as [|i]; cbn in Hn.
        -- injection Hn as ->. rewrite String.eqb_refl in E. discriminate.
        -- now elim (Hnot i).
Qed.

(** X8: for any list of domain names, the artifact has the database entry
    of [_generate_ams_objects_store] and one [ml_models] entry per position
    of the list, in order: position [i] gets the key [model_i] and the entry
    of the name at that position, so a name listed twice gets two
    entries. *)
Theorem generate_ams_object_ml_models (store : AMSDataStore)
    (rmq : option AMSRMQConfiguration) (self : AMSDomainJob) :
  db (_generate_ams_object store rmq self)
  = _generate_ams_objects_store store rmq self
  /\ ml_models (_generate_ams_object store rmq self)
     = map (fun i_name => (model_key (fst i_name), model_entry_of store (snd i_name)))
           (enumerate (domain_names self))
  /\ length (ml_models (_generate_ams_object store rmq self))
     = length (domain_names self)
  /\ (forall i, dict_get (model_key i) (ml_models (_generate_ams_object store rmq self))
                = option_map (model_entry_of store) (nth_error (domain_names self) i)).
Proof.
  assert (Hml : ml_models (_generate_ams_object store rmq self)
                = map (fun i_name => (model_key (fst i_name),
                                      model_entry_of store (snd i_name)))
                      (enumerate (domain_names self))).
  { unfold _generate_ams_object, enumerate.
    rewrite loop_ml_models; [reflexivity|]. reflexivity. }
  split; [|split; [|split]].
  - unfold _generate_ams_object. now rewrite loop_db.
  - exact Hml.
  - rewrite Hml. unfold enumerate.
    rewrite length_map, length_combine, length_seq. apply Nat.min_id.
  - intros i. rewrite Hml. unfold enumerate.
    apply (entries_lookup store (domain_names self) 0 i).
Qed.

(** X9: for any list of domain names, [domain_models] maps a name to the
    key of the last position at which the list has it, and has no other
    key.  So when a name is listed twice, the [ml_models] entry of its
    earlier position is the target of no domain. *)
Theorem generate_ams_object_domain_models (store : AMSDataStore)
    (rmq : option AMSRMQConfiguration) (self : AMSDomainJob) :
  (forall name,
      dict_get name (domain_models (_generate_ams_object store rmq self))
      = option_map model_key (last_index name (domain_names self)))
  /\ (forall name i,
         last_index name (domain_names self) = Some i
         <-> nth_error (domain_names self) i = Some name
             /\ (forall k, (i < k)%nat -> nth_error (domain_names self) k <> Some name))
  /\ (forall name i k,
         (i < k)%nat ->
         nth_error (domain_names self) i = Some name ->
         nth_error (domain_names self) k = Some name ->
         forall other,
           dict_get other (domain_models (_generate_ams_object store rmq self))
           <> Some (model_key i)).
Proof.
  assert (Hdm : forall name,
             dict_get name (domain_models (_generate_ams_object store rmq self))
             = option_map model_key (last_index name (domain_names self))).
  { intros name. unfold _generate_ams_object, enumerate.
    rewrite loop_domain_models.
    destruct (last_index name (domain_names self)); reflexivity. }
  split; [exact Hdm|]. split.
  - intros name i. apply last_index_spec.
  - intros name i k Hik Hi Hk other. rewrite Hdm.
    destruct (last_index other (domain_names self)) as [m|] eqn:Em;
      cbn -[model_key]; [|discriminate].
    intros E. assert (Hm : m = i) by (apply model_key_inj; congruence). subst m.
    apply last_index_spec in Em. destruct Em as [Hother Hlast].
    rewrite Hi in Hother. injection Hother as <-.
    exact (Hlast k Hik Hk).
Qed.

(** ** What [precede_deploy] does to the environment *)

Lemma environ_get_set_same (k : string) (v : pyval) (d : pydict) :
  environ_get k (environ_set k v d) = Some v.
Proof.
  induction d as [|[k' v'] d IH]; cbn.
  - now rewrite String.eqb_refl.
  - destruct k'; cbn; try exact IH.
    destruct (String.eqb k s) eqn:E; cbn; rewrite E; [reflexivity|exact IH].
Qed.

Lemma environ_get_set_other (k k' : string) (v : pyval) (d : pydict) :
  k <> k' -> environ_get k (environ_set k' v d) = environ_get k d.
Proof.
  intros Hneq. induction d as [|[k0 v0] d IH]; cbn.
  - apply String.eqb_neq in Hneq. now rewrite Hneq.
  - destruct k0; cbn; try exact IH.
    destruct (String.eqb k' s) eqn:E; cbn.
    + apply String.eqb_eq in E. subst s.
      apply String.eqb_neq in Hneq. now rewrite Hneq.
    + now rewrite IH.
Qed.

Lemma environ_get_of_environ (k : string) (d : strdict string) :
  environ_get k (map (fun kv => (VStr (fst kv), VStr (snd kv))) d)
  = option_map VStr (dict_get k d).
Proof.
  induction d as [|[k' v'] d IH]; cbn; [reflexivity|].
  destruct (String.eqb k k'); [reflexivity|exact IH].
Qed.

(** What [precede_deploy] returns for a job with an environment. *)
Lemma precede_deploy_with_environ (store : AMSDataStore)
    (rmq : option AMSRMQConfiguration) (tmp_path unique_fn : string)
    (self : AMSDomainJob) (env : pydict) :
  environ (job self) = Some env ->
  precede_deploy store rmq tmp_path unique_fn self
  = ([(ams_object_path tmp_path unique_fn, _generate_ams_object store rmq self)],
     Ok {| domain_names := domain_names self;
           stage_dir := stage_dir self;
           _ams_object := Some (_generate_ams_object store rmq self);
           _ams_object_fn := Some (ams_object_path tmp_path unique_fn);
           job :=
             with_environ
               (Some
                  (let env :=
                     environ_set "AMS_OBJECTS"
                       (VStr (ams_object_path tmp_path unique_fn)) env in
                   if ams_log (job self)
                   then environ_set "AMS_LOG_LEVEL" (VStr "debug") env
                   else env))
               (job self) |}).
Proof.
  intros Henv. unfold precede_deploy, environ_setitem, ams_object_path.
  rewrite Henv. cbn [bind with_environ ams_log environ].
  destruct (ams_log (job self)); reflexivity.
Qed.

(** X10: on a domain job that has an environment, [precede_deploy] writes
    one file, named after the temporary directory and the unique name, and
    returns; afterwards the job remembers the object and the file, its
    environment binds [AMS_OBJECTS] to the path of that file and, when the
    job logs, [AMS_LOG_LEVEL] to [debug], and every other variable is as
    before.  Nothing else of the job changes. *)
Theorem precede_deploy_environment (store : AMSDataStore)
    (rmq : option AMSRMQConfiguration) (tmp_path unique_fn : string)
    (self : AMSDomainJob) (env : pydict)
    (Henv : environ (job self) = Some env) :
  exists (self' : AMSDomainJob) (env' : pydict),
    precede_deploy store rmq tmp_path unique_fn self
    = ([(ams_object_path tmp_path unique_fn, _generate_ams_object store rmq self)],
       Ok self')
    /\ _ams_object self' = Some (_generate_ams_object store rmq self)
    /\ _ams_object_fn self' = Some (ams_object_path tmp_path unique_fn)
    /\ domain_names self' = domain_names self
    /\ stage_dir self' = stage_dir self
    /\ job self' = with_environ (Some env') (job self)
    /\ environ_get "AMS_OBJECTS" env'
       = Some (VStr (ams_object_path tmp_path unique_fn))
    /\ environ_get "AMS_LOG_LEVEL" env'
       = (if ams_log (job self) then Some (VStr "debug")
          else environ_get "AMS_LOG_LEVEL" env)
    /\ (forall k, k <> "AMS_OBJECTS" -> k <> "AMS_LOG_LEVEL" ->
                  environ_get k env' = environ_get k env).
Proof.
  rewrite (precede_deploy_with_environ _ _ _ _ _ _ Henv).
  eexists. eexists. split; [reflexivity|].
  cbn [_ams_object _ams_object_fn domain_names stage_dir job].
  repeat (split; [reflexivity|]).
  destruct (ams_log (job self)); cbn zeta; split; [|split| |split].
  - rewrite environ_get_set_other by discriminate. apply environ_get_set_same.
  - apply environ_get_set_same.
  - intros k H1 H2. now rewrite !environ_get_set_other.
  - apply environ_get_set_same.
  - now rewrite environ_get_set_other.
  - intros k H1 H2. now rewrite environ_get_set_other.
Qed.

Lemma precede_deploy_environment_witness :
  exists self',
    precede_deploy one_model_store None "/db/tmp" "f81d4fae" two_domain_job
    = ([("/db/tmp/f81d4fae.json",
         _generate_ams_object one_model_store None two_domain_job)],
       Ok self')
    /\ environ (job self')
       = Some [(VStr "AMS_OBJECTS", VStr "/db/tmp/f81d4fae.json")].
Proof.
  destruct (precede_deploy_environment one_model_store None "/db/tmp" "f81d4fae"
              two_domain_job [] eq_refl)
    as (self' & env' & Hrun & _).
  exists self'. split; [exact Hrun|].
  cbn in Hrun. injection Hrun as <-. reflexivity.
Defined.

(** X11: on a domain job whose environment is [None], [precede_deploy]
    writes the artifact and then raises the [TypeError] of assigning an item
    of [None]: the file is left behind and the call fails. *)
Theorem precede_deploy_without_environ (store : AMSDataStore)
    (rmq : option AMSRMQConfiguration) (tmp_path unique_fn : string)
    (self : AMSDomainJob) (Henv : environ (job self) = None) :
  precede_deploy store rmq tmp_path unique_fn self
  = ([(ams_object_path tmp_path unique_fn, _generate_ams_object store rmq self)],
     Raise TypeError).
Proof.
  unfold precede_deploy, environ_setitem. rewrite Henv. reflexivity.
Qed.

Lemma precede_deploy_without_environ_witness :
  precede_deploy one_model_store None "/db/tmp" "f81d4fae" envless_domain_job
  = ([("/db/tmp/f81d4fae.json",
       {| db := DbFs "/scratch/stage" "hdf5";
          ml_models := [("model_0",
                         {| me_uq_type := "faiss"; me_model_path := "m.pt";
                            me_uq_aggregate := "mean";
                            me_threshold := NFloat (1 # 2);
                            me_db_label := "ion" |})];
          domain_models := [("ion", "model_0")] |})],
     Raise TypeError).
Proof.
  exact (precede_deploy_without_environ one_model_store None "/db/tmp" "f81d4fae"
           envless_domain_job eq_refl).
Defined.

(** X12: calling [precede_deploy] again on the job it returned writes the
    same object to the file of the second call and returns; the environment
    then names the second file, and the first file is still there. *)
Theorem precede_deploy_twice (store : AMSDataStore)
    (rmq : option AMSRMQConfiguration) (tmp_path first second : string)
    (self self1 : AMSDomainJob)
    (Hfirst : snd (precede_deploy store rmq tmp_path first self) = Ok self1) :
  exists (self2 : AMSDomainJob) (env2 : pydict),
    precede_deploy store rmq tmp_path second self1
    = ([(ams_object_path tmp_path second, _generate_ams_object store rmq self)],
       Ok self2)
    /\ environ (job self2) = Some env2
    /\ environ_get "AMS_OBJECTS" env2 = Some (VStr (ams_object_path tmp_path second))
    /\ _ams_object_fn self2 = Some (ams_object_path tmp_path second)
    /\ _ams_object self2 = _ams_object self1.
Proof.
  destruct (environ (job self)) as [env|] eqn:Henv.
  - rewrite (precede_deploy_with_environ _ _ _ _ _ _ Henv) in Hfirst.
    cbn [snd] in Hfirst. injection Hfirst as <-.
    erewrite precede_deploy_with_environ by reflexivity.
    eexists. eexists. split; [reflexivity|].
    cbn [job with_environ environ ams_log _ams_object_fn _ams_object].
    split; [reflexivity|]. split; [|split; reflexivity].
    destruct (ams_log (job self)); cbn zeta.
    + rewrite environ_get_set_other by discriminate. apply environ_get_set_same.
    + apply environ_get_set_same.
  - unfold precede_deploy, environ_setitem in Hfirst. rewrite Henv in Hfirst.
    discriminate.
Qed.

Lemma precede_deploy_twice_witness :
  exists self1 self2,
    snd (precede_deploy one_model_store None "/db/tmp" "f81d4fae" two_domain_job)
    = Ok self1
    /\ snd (precede_deploy one_model_store None "/db/tmp" "0a1b2c3d" self1)
       = Ok self2
    /\ environ (job self2)
       = Some [(VStr "AMS_OBJECTS", VStr "/db/tmp/0a1b2c3d.json")].
Proof.
  eexists.
  destruct (precede_deploy_twice one_model_store None "/db/tmp" "f81d4fae"
              "0a1b2c3d" two_domain_job _ eq_refl)
    as (self2 & env2 & Hrun & Henv & _).
  exists self2. split; [reflexivity|].
  cbn in Hrun. injection Hrun as <-. split; reflexivity.
Defined.

(** ** The factory of the domain jobs *)

(** What [AMSDomainJob.from_descr] returns, when it returns. *)
Lemma AMSDomainJob_from_descr_inversion (os_environ : strdict string)
    (descr : domain_descr) (dir : option string) (dj : AMSDomainJob) :
  AMSDomainJob_from_descr os_environ descr dir = Ok dj ->
  exists rd r n names cli exe,
    dd_resources descr = Some rd
    /\ AMSJobResources_init rd = Ok r
    /\ dd_name descr = Some n
    /\ dd_domain_names descr = Some names
    /\ dd_cli descr = Some cli
    /\ cli_collides cli = false
    /\ d_executable cli = Some exe
    /\ dj = {| domain_names := names;
               stage_dir := dir;
               _ams_object := None;
               _ams_object_fn := None;
               job :=
                 {| name := n; executable := exe;
                    environ := Some (map (fun kv => (VStr (fst kv), VStr (snd kv)))
                                         os_environ);
                    resources := Some r;
                    stdout := or_default (d_stdout cli) None;
                    stderr := or_default (d_stderr cli) None;
                    cli_args := or_default (or_default (d_cli_args cli) (Some [])) [];
                    cli_kwargs := or_default (or_default (d_cli_kwargs cli) (Some [])) [];
                    is_mpi := or_default (d_is_mpi cli) (Some false);
                    ams_log := or_default (dd_ams_log descr) false |} |}.
Proof.
  unfold AMSDomainJob_from_descr.
  destruct (dd_resources descr) as [rd|]; [cbn [getitem bind]|discriminate].
  destruct (AMSJobResources_init rd) as [r|] eqn:Er; [cbn [bind]|discriminate].
  destruct (dd_name descr) as [n|]; [cbn [getitem bind]|discriminate].
  destruct (dd_domain_names descr) as [names|]; [cbn [getitem bind]|discriminate].
  destruct (dd_cli descr) as [cli|]; [cbn [getitem bind]|discriminate].
  destruct (cli_collides cli) eqn:Ec; [discriminate|].
  destruct (d_executable cli) as [exe|] eqn:Ee; [|discriminate].
  unfold AMSDomainJob_init, AMSJob_init. cbn [bind environ_value].
  intros [= <-]. exists rd, r, n, names, cli, exe.
  repeat split; reflexivity || assumption.
Qed.

(** X13: a domain job that [from_descr] builds has a copy of the process
    environment, variable for variable, the resources built from the
    description, the stage directory it was given and neither object nor
    file yet.  Its environment is a [dict], so assigning an item to it, as
    [precede_deploy] does for [AMS_OBJECTS], succeeds and binds the
    variable. *)
Theorem AMSDomainJob_from_descr_environ (os_environ : strdict string)
    (descr : domain_descr) (dir : option string) (dj : AMSDomainJob)
    (Hjob : AMSDomainJob_from_descr os_environ descr dir = Ok dj) :
  stage_dir dj = dir
  /\ _ams_object dj = None
  /\ _ams_object_fn dj = None
  /\ dd_domain_names descr = Some (domain_names dj)
  /\ ams_log (job dj) = or_default (dd_ams_log descr) false
  /\ (exists rd r, dd_resources descr = Some rd
                   /\ AMSJobResources_init rd = Ok r
                   /\ resources (job dj) = Some r)
  /\ (exists env, environ (job dj) = Some env
                  /\ forall k, environ_get k env
                               = option_map VStr (dict_get k os_environ))
  /\ (forall k v,
         exists env',
           environ_setitem k v (job dj) = Ok (with_environ (Some env') (job dj))
           /\ environ_get k env' = Some v).
Proof.
  destruct (AMSDomainJob_from_descr_inversion _ _ _ _ Hjob)
    as (rd & r & n & names & cli & exe & Hrd & Hr & Hn & Hnames & Hcli & _ & _ & ->).
  cbn [stage_dir _ams_object _ams_object_fn domain_names job ams_log resources
       environ].
  repeat (split; [reflexivity || assumption|]).
  split; [exists rd, r; repeat split; assumption|]. split.
  - eexists. split; [reflexivity|]. intros k. apply environ_get_of_environ.
  - intros k v. unfold environ_setitem. cbn [environ].
    eexists. split; [reflexivity|]. apply environ_get_set_same.
Qed.

Lemma AMSDomainJob_from_descr_environ_witness :
  exists dj env,
    AMSDomainJob_from_descr process_environ ion_descr (Some "/scratch/stage") = Ok dj
    /\ ams_log (job dj) = true
    /\ environ (job dj) = Some env
    /\ environ_get "HOME" env = Some (VStr "/home/ams").
Proof.
  eexists.
  destruct (AMSDomainJob_from_descr_environ process_environ ion_descr
              (Some "/scratch/stage") _ eq_refl)
    as (_ & _ & _ & _ & Hlog & _ & (env & Henv & Hget) & _).
  exists env. split; [reflexivity|]. split; [exact Hlog|].
  split; [exact Henv | exact (Hget "HOME")].
Defined.

(** X14: [AMSDomainJob.from_descr] returns exactly when the description has
    resources that the resources constructor accepts, a name, the domain
    names and a [cli] entry with an executable and none of the keywords the
    factory passes itself ([name], [environ], [resources], [ams_log]) nor a
    key that is no parameter.  A description without [resources] is a
    [KeyError] whatever else it holds; resources that are rejected, a [cli]
    entry that repeats a keyword and a [cli] entry without executable are
    [TypeError]s. *)
Theorem AMSDomainJob_from_descr_succeeds_iff (os_environ : strdict string)
    (descr : domain_descr) (dir : option string) :
  (succeeds (AMSDomainJob_from_descr os_environ descr dir)
   <-> (exists rd, dd_resources descr = Some rd
                   /\ succeeds (AMSJobResources_init rd))
       /\ dd_name descr <> None
       /\ dd_domain_names descr <> None
       /\ (exists cli, dd_cli descr = Some cli
                       /\ cli_collides cli = false
                       /\ d_executable cli <> None))
  /\ (dd_resources descr = None ->
      AMSDomainJob_from_descr os_environ descr dir = Raise KeyError)
  /\ (forall rd, dd_resources descr = Some rd -> fails (AMSJobResources_init rd) ->
        AMSDomainJob_from_descr os_environ descr dir = Raise TypeError)
  /\ (forall rd cli,
         dd_resources descr = Some rd -> succeeds (AMSJobResources_init rd) ->
         dd_name descr <> None -> dd_domain_names descr <> None ->
         dd_cli descr = Some cli ->
         cli_collides cli = true \/ d_executable cli = None ->
         AMSDomainJob_from_descr os_environ descr dir = Raise TypeError).
Proof.
  split; [|split; [|split]].
  - split.
    + intros [dj Hdj].
      destruct (AMSDomainJob_from_descr_inversion _ _ _ _ Hdj)
        as (rd & r & n & names & cli & exe & Hrd & Hr & Hn & Hnames & Hcli & Hc
            & He & _).
      split; [exists rd; split; [assumption|]; exists r; assumption|].
      split; [congruence|]. split; [congruence|].
      exists cli. repeat split; congruence.
    + intros [(rd & Hrd & [r Hr]) (Hn & Hnames & (cli & Hcli & Hc & He))].
      unfold AMSDomainJob_from_descr. rewrite Hrd, Hcli. cbn [getitem bind].
      rewrite Hr. cbn [bind].
      destruct (dd_name descr) as [n|]; [|now elim Hn].
      destruct (dd_domain_names descr) as [names|]; [|now elim Hnames].
      cbn [getitem bind]. rewrite Hc.
      destruct (d_executable cli) as [exe|]; [|now elim He].
      unfold AMSDomainJob_init, AMSJob_init. cbn [bind environ_value].
      eexists. reflexivity.
  - intros H. unfold AMSDomainJob_from_descr. now rewrite H.
  - intros rd Hrd [e He]. unfold AMSDomainJob_from_descr.
    rewrite Hrd. cbn [getitem bind]. rewrite He. cbn [bind].
    now rewrite (AMSJobResources_init_raises _ _ He).
  - intros rd cli Hrd [r Hr] Hn Hnames Hcli Hbad.
    unfold AMSDomainJob_from_descr. rewrite Hrd, Hcli. cbn [getitem bind].
    rewrite Hr. cbn [bind].
    destruct (dd_name descr) as [n|]; [|now elim Hn].
    destruct (dd_domain_names descr) as [names|]; [|now elim Hnames].
    cbn [getitem bind].
    destruct (cli_collides cli); [reflexivity|].
    destruct Hbad as [Hbad | ->]; [discriminate|reflexivity].
Qed.

(** ** The flags and arguments of the staging jobs *)

(** What [AMSStageJob.__init__] builds, when it builds a job. *)
Lemma AMSStageJob_init_inversion (path_exists : string -> bool)
    (res : resources_arg) (dest persistent_db_path : string) (store : bool)
    (db_type policy : string) (prune_module_path prune_class : option string)
    (env : environ_arg) (out err : option string) (args : list pyval)
    (kwargs : strdict pyval) (j : AMSJob) :
  snd (AMSStageJob_init path_exists res dest persistent_db_path store db_type
         policy prune_module_path prune_class env out err args kwargs)
  = Ok j ->
  exists kw,
    cli_kwargs j = kw
    /\ cli_args j = args ++ [VStr (if store then "--store" else "--no-store")]
    /\ name j = "AMSStageJob"
    /\ executable j = "AMSDBStage"
    /\ (let flags :=
          dict_set "--policy" (VStr policy)
            (dict_set "--db-type" (VStr db_type)
               (dict_set "--persistent-db-path" (VStr persistent_db_path)
                  (dict_set "--dest" (VStr dest) kwargs))) in
        (prune_module_path = None /\ kw = flags)
        \/ (exists path class,
               prune_module_path = Some path
               /\ prune_class = Some class
               /\ path_exists path = true
               /\ kw = dict_set "--class" (VStr class)
                         (dict_set "--load" (VStr path) flags))).
Proof.
  unfold AMSStageJob_init.
  assert (Hbase : forall kw a,
             AMSJob_init "AMSStageJob" "AMSDBStage" env res out err false
               (Some false) (Some a) (Some kw) = Ok j ->
             cli_kwargs j = kw /\ cli_args j = a
             /\ name j = "AMSStageJob" /\ executable j = "AMSDBStage").
  { intros kw a. unfold AMSJob_init.
    destruct (match res with ResNone => _ | _ => _ end); [cbn [bind]|discriminate].
    destruct (environ_value env); [cbn [bind]|discriminate].
    intros [= <-]. repeat split. }
  destruct prune_module_path as [path|]; cbn [snd].
  - destruct (path_exists path) eqn:Hex; cbn [negb snd]; [|discriminate].
    destruct prune_class as [class|]; cbn [snd]; [|discriminate].
    intros H. apply Hbase in H. destruct H as (Hk & Ha & Hn & He).
    eexists. split; [exact Hk|].
    split; [rewrite Ha; now destruct store|]. split; [exact Hn|]. split; [exact He|].
    right. exists path, class. repeat split. exact Hex.
  - intros H. apply Hbase in H. destruct H as (Hk & Ha & Hn & He).
    eexists. split; [exact Hk|].
    split; [rewrite Ha; now destruct store|]. split; [exact Hn|]. split; [exact He|].
    left. split; reflexivity.
Qed.

Ltac other_flag :=
  match goal with
  | H : ~ In ?k _ |- ?k <> _ =>
      let E := fresh in intros E; apply H; rewrite E; cbn; tauto
  end.

Ltac lookup_flag :=
  repeat (rewrite dict_get_set_other by (discriminate || other_flag));
  (apply dict_get_set_same || reflexivity).

Section StagingFlags.

Variable path_exists : string -> bool.
Variables (res : resources_arg) (env : environ_arg) (out err : option string).
Variables (args : list pyval) (kwargs : strdict pyval).
Variables (dest persistent_db_path db_type policy : string) (store : bool).
Variables (src pattern src_type creds : string) (update_models : bool).
Variables (store_dir src_dir dest_dir : string).
Variables (prune_module_path prune_class : option string).

(** X15: the flags a staging constructor sets override the flags of the
    same name that the caller passes, and the other flags of the caller are
    kept: whatever [cli_kwargs] holds, a built [AMSStageJob] has the
    constructor's [--dest], [--persistent-db-path], [--db-type] and
    [--policy]; the filesystem and network children also have their own
    source flags, their [--mechanism] and the policy [process]. *)
Theorem staging_flags_override :
  (forall j,
      snd (AMSStageJob_init path_exists res dest persistent_db_path store db_type
             policy prune_module_path prune_class env out err args kwargs)
      = Ok j ->
      dict_get "--dest" (cli_kwargs j) = Some (VStr dest)
      /\ dict_get "--persistent-db-path" (cli_kwargs j)
         = Some (VStr persistent_db_path)
      /\ dict_get "--db-type" (cli_kwargs j) = Some (VStr db_type)
      /\ dict_get "--policy" (cli_kwargs j) = Some (VStr policy)
      /\ (forall k,
             ~ In k ["--dest"; "--persistent-db-path"; "--db-type"; "--policy";
                     "--load"; "--class"] ->
             dict_get k (cli_kwargs j) = dict_get k kwargs))
  /\ (forall j,
         snd (AMSFSStageJob_init path_exists res dest persistent_db_path src store
                db_type pattern src_type prune_module_path prune_class env out
                err args kwargs)
         = Ok j ->
         dict_get "--src" (cli_kwargs j) = Some (VStr src)
         /\ dict_get "--src-type" (cli_kwargs j) = Some (VStr src_type)
         /\ dict_get "--pattern" (cli_kwargs j) = Some (VStr pattern)
         /\ dict_get "--mechanism" (cli_kwargs j) = Some (VStr "fs")
         /\ dict_get "--dest" (cli_kwargs j) = Some (VStr dest)
         /\ dict_get "--policy" (cli_kwargs j) = Some (VStr "process"))
  /\ (forall j,
         snd (AMSNetworkStageJob_init path_exists res dest persistent_db_path
                creds store db_type update_models prune_module_path prune_class
                env out err args kwargs)
         = Ok j ->
         dict_get "--creds" (cli_kwargs j) = Some (VStr creds)
         /\ dict_get "--mechanism" (cli_kwargs j) = Some (VStr "network")
         /\ dict_get "--dest" (cli_kwargs j) = Some (VStr dest)
         /\ dict_get "--policy" (cli_kwargs j) = Some (VStr "process")).
Proof.
  split; [|split].
  - intros j H. apply AMSStageJob_init_inversion in H.
    destruct H as (kw & -> & _ & _ & _ & [[_ ->] | (p & c & _ & _ & _ & ->)]);
      repeat split; try lookup_flag; intros k Hk; lookup_flag.
  - intros j H. unfold AMSFSStageJob_init in H.
    apply AMSStageJob_init_inversion in H.
    destruct H as (kw & -> & _ & _ & _ & [[_ ->] | (p & c & _ & _ & _ & ->)]);
      repeat split; lookup_flag.
  - intros j H. unfold AMSNetworkStageJob_init in H.
    apply AMSStageJob_init_inversion in H.
    destruct H as (kw & -> & _ & _ & _ & [[_ ->] | (p & c & _ & _ & _ & ->)]);
      repeat split; lookup_flag.
Qed.

(** X16: a staging constructor appends its own positional arguments to
    those of the caller: the store flag goes last, after
    [--update-rmq-models] for a network job that updates models, and
    [AMSFSTempStageJob] always appends [--store].  Positional arguments
    close the command, so the command of a built job ends with the store
    flag. *)
Theorem staging_store_flag_last :
  (forall j cmd,
      snd (AMSStageJob_init path_exists res dest persistent_db_path store db_type
             policy prune_module_path prune_class env out err args kwargs)
      = Ok j ->
      cli_args j = args ++ [VStr (if store then "--store" else "--no-store")]
      /\ (generate_cli_command j = Ok cmd ->
          last cmd "" = (if store then "--store" else "--no-store")))
  /\ (forall j cmd,
         snd (AMSFSStageJob_init path_exists res dest persistent_db_path src store
                db_type pattern src_type prune_module_path prune_class env out
                err args kwargs)
         = Ok j ->
         cli_args j = args ++ [VStr (if store then "--store" else "--no-store")]
         /\ (generate_cli_command j = Ok cmd ->
             last cmd "" = (if store then "--store" else "--no-store")))
  /\ (forall j cmd,
         snd (AMSNetworkStageJob_init path_exists res dest persistent_db_path
                creds store db_type update_models prune_module_path prune_class
                env out err args kwargs)
         = Ok j ->
         cli_args j
         = args ++ (if update_models then [VStr "--update-rmq-models"] else [])
                ++ [VStr (if store then "--store" else "--no-store")]
         /\ (generate_cli_command j = Ok cmd ->
             last cmd "" = (if store then "--store" else "--no-store")))
  /\ (forall j cmd,
         snd (AMSFSTempStageJob_init path_exists store_dir src_dir dest_dir res
                env out err prune_module_path prune_class args kwargs)
         = Ok j ->
         cli_args j = args ++ [VStr "--store"]
         /\ (generate_cli_command j = Ok cmd -> last cmd "" = "--store")).
Proof.
  assert (Hlast : forall (j : AMSJob) (front : list pyval) (flag : string)
                    (cmd : list string),
             cli_args j = front ++ [VStr flag] ->
             generate_cli_command j = Ok cmd -> last cmd "" = flag).
  { intros j front flag cmd Ha. unfold generate_cli_command.
    destruct (dict_mem "executable" (cli_kwargs j)); [discriminate|].
    intros [= <-]. unfold constuct_cli_cmd.
    rewrite fold_left_append_args, Ha, map_app. cbn [map py_str].
    rewrite app_assoc. apply last_last. }
  split; [|split; [|split]].
  - intros j cmd H. apply AMSStageJob_init_inversion in H.
    destruct H as (kw & _ & Ha & _). split; [exact Ha|].
    eapply Hlast. exact Ha.
  - intros j cmd H. unfold AMSFSStageJob_init in H.
    apply AMSStageJob_init_inversion in H.
    destruct H as (kw & _ & Ha & _). split; [exact Ha|].
    eapply Hlast. exact Ha.
  - intros j cmd H. unfold AMSNetworkStageJob_init in H.
    apply AMSStageJob_init_inversion in H.
    destruct H as (kw & _ & Ha & _).
    assert (Ha' : cli_args j
                  = (args ++ (if update_models then [VStr "--update-rmq-models"]
                              else []))
                      ++ [VStr (if store then "--store" else "--no-store")]).
    { rewrite Ha. destruct update_models; [reflexivity|].
      now rewrite app_nil_r. }
    split; [rewrite Ha'; now rewrite <- app_assoc|].
    eapply Hlast. exact Ha'.
  - intros j cmd. unfold AMSFSTempStageJob_init.
    assert (Hbase : forall kw,
               AMSJob_init "AMSStage" "AMSDBStage" env res out err false
                 (Some false) (Some (args ++ [VStr "--store"])) (Some kw) = Ok j ->
               cli_args j = args ++ [VStr "--store"]).
    { intros kw. unfold AMSJob_init.
      destruct (match res with ResNone => _ | _ => _ end); [cbn [bind]|discriminate].
      destruct (environ_value env); [cbn [bind]|discriminate].
      intros [= <-]. reflexivity. }
    intros H.
    assert (Ha : cli_args j = args ++ [VStr "--store"]).
    { destruct prune_module_path as [path|]; cbn [snd] in H.
      - destruct (path_exists path); cbn [negb snd] in H; [|discriminate].
        eapply Hbase. exact H.
      - eapply Hbase. exact H. }
    split; [exact Ha|]. eapply Hlast. exact Ha.
Qed.

(** X17: a built [AMSStageJob], filesystem or network staging job that was
    given a pruning module has a module that is on disk and a class, and
    carries them as [--load] and [--class]; one that was given no pruning
    module gets no pruning flag from the constructor, and a pruning class
    passed without a module is dropped. *)
Theorem staging_prune_flags :
  (forall j,
      snd (AMSStageJob_init path_exists res dest persistent_db_path store db_type
             policy prune_module_path prune_class env out err args kwargs)
      = Ok j
      \/ snd (AMSFSStageJob_init path_exists res dest persistent_db_path src store
                db_type pattern src_type prune_module_path prune_class env out
                err args kwargs)
         = Ok j
      \/ snd (AMSNetworkStageJob_init path_exists res dest persistent_db_path
                creds store db_type update_models prune_module_path prune_class
                env out err args kwargs)
         = Ok j ->
      (forall path,
          prune_module_path = Some path ->
          path_exists path = true
          /\ dict_get "--load" (cli_kwargs j) = Some (VStr path)
          /\ exists class,
               prune_class = Some class
               /\ dict_get "--class" (cli_kwargs j) = Some (VStr class))
      /\ (prune_module_path = None ->
          dict_get "--load" (cli_kwargs j) = dict_get "--load" kwargs
          /\ dict_get "--class" (cli_kwargs j) = dict_get "--class" kwargs)).
Proof.
  intros j H.
  unfold AMSFSStageJob_init, AMSNetworkStageJob_init in H.
  destruct H as [H | [H | H]]; apply AMSStageJob_init_inversion in H;
    destruct H as (kw & -> & _ & _ & _ & [[Hp ->] | (p & c & Hp & Hc & Hex & ->)]);
    (split; [intros path E | intros E]); rewrite Hp in E;
    try discriminate;
    try (injection E as <-;
         split; [exact Hex|]; split; [lookup_flag|];
         exists c; split; [exact Hc | lookup_flag]);
    split; lookup_flag.
Qed.

End StagingFlags.

Lemma staging_prune_flags_witness :
  exists j,
    snd (AMSNetworkStageJob_init (fun _ => true) (ResObject two_by_three)
           "/db/stage" "/db" "creds.json" true "dhdf5" false
           (Some "/opt/pruner.py") (Some "Pruner") (AScalar VNone) None None
           [] [("--load", VStr "other.py")])
    = Ok j
    /\ dict_get "--load" (cli_kwargs j) = Some (VStr "/opt/pruner.py").
Proof.
  eexists. split; [reflexivity|].
  exact (proj1 (proj2 (proj1
           (staging_prune_flags (fun _ => true) (ResObject two_by_three)
              (AScalar VNone) None None [] [("--load", VStr "other.py")]
              "/db/stage" "/db" "dhdf5" "process" true "/data" "*.h5" "shdf5"
              "creds.json" false (Some "/opt/pruner.py") (Some "Pruner") _
              (or_intror (or_intror eq_refl)))
           "/opt/pruner.py" eq_refl))).
Defined.

(** X18: [resources_from_domain_job] fails with an [AttributeError] on a
    domain job without resources; otherwise it keeps the nodes and the GPUs
    per task of the domain job and asks for one task per node, five cores
    per task and no exclusive use, so a job with these resources lowers to
    as many tasks as nodes. *)
Theorem resources_from_domain_job_lowering (domain_job : AMSDomainJob) :
  (resources (job domain_job) = None ->
   resources_from_domain_job domain_job = Raise AttributeError)
  /\ (forall r,
         resources_from_domain_job domain_job = Ok r ->
         exists rd,
           resources (job domain_job) = Some rd
           /\ nodes r = nodes rd
           /\ gpus_per_task r = gpus_per_task rd
           /\ tasks_per_node r = VInt 1
           /\ cores_per_task r = VInt 5
           /\ exclusive r = VBool false)
  /\ (forall r lib cwd j spec n,
         resources_from_domain_job domain_job = Ok r ->
         resources j = Some r ->
         nodes r = VInt n ->
         to_flux_jobspec lib cwd j = Ok spec ->
         spec_num_tasks spec = VInt n
         /\ spec_num_nodes spec = VInt n
         /\ spec_cores_per_task spec = VInt 5
         /\ spec_exclusive spec = VBool false).
Proof.
  assert (Hshape : forall r,
             resources_from_domain_job domain_job = Ok r ->
             exists rd,
               resources (job domain_job) = Some rd
               /\ nodes r = nodes rd
               /\ gpus_per_task r = gpus_per_task rd
               /\ tasks_per_node r = VInt 1
               /\ cores_per_task r = VInt 5
               /\ exclusive r = VBool false).
  { intros r. unfold resources_from_domain_job, resources_attr.
    destruct (resources (job domain_job)) as [rd|]; [cbn [bind]|discriminate].
    intros [= <-]. exists rd. repeat split. }
  split; [|split].
  - intros H. unfold resources_from_domain_job, resources_attr. now rewrite H.
  - exact Hshape.
  - intros r lib cwd j spec n Hr Hj Hn Hspec.
    destruct (Hshape r Hr) as (rd & _ & _ & _ & Ht & Hc & Hx).
    destruct (to_flux_jobspec_inversion _ _ _ _ Hspec)
      as (r' & env & num_tasks & Hr' & _ & _ & Hm & _ & _ & _ & ->).
    rewrite Hj in Hr'. injection Hr' as <-.
    rewrite Ht, Hn in Hm. cbn in Hm. injection Hm as <-.
    cbn [spec_num_tasks spec_num_nodes spec_cores_per_task spec_exclusive].
    repeat split; try assumption. f_equal. now destruct n.
Qed.

(** X19: [AMSOrchestratorJob] always builds its job; the job runs
    [AMSOrchestrator --ml-uri <uri> --ams-rmq-config <config>] with a copy of
    the process environment, and whenever it lowers, the specification asks
    for one task on one node, not exclusively, writes to the two
    [AMSOrchestrator-log] files and carries the [mpi] and [gpu-affinity]
    shell options. *)
Theorem AMSOrchestratorJob_lowering (os_environ : strdict string)
    (flux_uri rmq_config : pyval) :
  exists j env,
    AMSOrchestratorJob_init os_environ flux_uri rmq_config = Ok j
    /\ generate_cli_command j
       = Ok ["AMSOrchestrator"; "--ml-uri"; py_str flux_uri;
             "--ams-rmq-config"; py_str rmq_config]
    /\ environ j = Some env
    /\ (forall k, environ_get k env = option_map VStr (dict_get k os_environ))
    /\ (forall lib cwd spec,
           to_flux_jobspec lib cwd j = Ok spec ->
           spec_num_tasks spec = VInt 1
           /\ spec_num_nodes spec = VInt 1
           /\ spec_exclusive spec = VBool false
           /\ spec_stdout spec = Some "AMSOrchestrator-log.out"
           /\ spec_stderr spec = Some "AMSOrchestrator-log.err"
           /\ spec_shell_options spec
              = [("mpi", "spectrum"); ("gpu-affinity", "per-task")]).
Proof.
  unfold AMSOrchestratorJob_init, AMSJob_init. cbn [bind environ_value or_default].
  eexists. eexists. split; [reflexivity|].
  split; [reflexivity|]. split; [reflexivity|]. split.
  - intros k. apply environ_get_of_environ.
  - intros lib cwd spec Hspec.
    destruct (to_flux_jobspec_inversion _ _ _ _ Hspec)
      as (r & env & num_tasks & Hr & _ & _ & Hm & _ & _ & _ & ->).
    cbn [resources] in Hr. injection Hr as <-.
    cbn in Hm. injection Hm as <-.
    repeat split.
Qed.

(** ** What the ML job factory substitutes *)

Lemma append_assoc (a b c : string) :
  String.append (String.append a b) c = String.append a (String.append b c).
Proof. induction a as [|x a IH]; cbn; [reflexivity|now rewrite IH]. Qed.

Lemma append_empty_r (a : string) : String.append a "" = a.
Proof. induction a as [|x a IH]; cbn; [reflexivity|now rewrite IH]. Qed.

Section Substitution.

Variable extended :
  string -> string -> option ascii -> string -> strdict string -> result string.
Variable formatting : strdict string.

Lemma scan_prefix (prefix rest : string) :
  brace_free prefix = true ->
  scan InText (String.append prefix rest)
  = (map TChar (list_ascii_of_string prefix) ++ fst (scan InText rest),
     snd (scan InText rest)).
Proof.
  induction prefix as [|c prefix IH]; cbn [String.append brace_free]; intros Hfree.
  - now destruct (scan InText rest).
  - apply andb_prop in Hfree. destruct Hfree as [Hc Hfree].
    apply andb_prop in Hc. destruct Hc as [Ho Hc].
    apply negb_true_iff in Ho, Hc.
    cbn [scan step]. rewrite Ho, Hc, (IH Hfree). reflexivity.
Qed.

Lemma render_chars (prefix : string) (ts : list token) :
  render extended formatting (map TChar (list_ascii_of_string prefix) ++ ts)
  = (r <- render extended formatting ts ;; Ok (String.append prefix r)).
Proof.
  induction prefix as [|c prefix IH]; cbn.
  - now destruct (render extended formatting ts).
  - rewrite IH. now destruct (render extended formatting ts).
Qed.

(** Formatting goes through a prefix without braces and leaves it as it
    is. *)
Lemma format_prefix (prefix rest : string) :
  brace_free prefix = true ->
  format extended formatting (String.append prefix rest)
  = (r <- format extended formatting rest ;; Ok (String.append prefix r)).
Proof.
  intros Hfree. unfold format. rewrite scan_prefix by assumption.
  destruct (scan InText rest) as [ts e]. cbn [fst snd].
  rewrite render_chars.
  destruct (render extended formatting ts); cbn [bind]; [|reflexivity].
  destruct e; reflexivity.
Qed.

Lemma format_brace_free (s : string) :
  brace_free s = true -> format extended formatting s = Ok s.
Proof.
  intros Hfree. rewrite <- (append_empty_r s) at 1.
  rewrite format_prefix by assumption. cbn. now rewrite append_empty_r.
Qed.

(** The field [{AMS_STORE_PATH}] at the head of a template. *)
Lemma format_store_path (value rest : string) :
  dict_get "AMS_STORE_PATH" formatting = Some value ->
  format extended formatting (String.append "{AMS_STORE_PATH}" rest)
  = (r <- format extended formatting rest ;; Ok (String.append value r)).
Proof.
  intros Hkey. unfold format. cbn [String.append scan step].
  cbn -[scan render dict_get].
  destruct (scan InText rest) as [ts e].
  cbn [render]. unfold render_field. cbn -[render dict_get].
  rewrite Hkey. cbn [bind].
  destruct (render extended formatting ts); cbn [bind]; [|reflexivity].
  destruct e; reflexivity.
Qed.

Lemma format_args_nth (args args' : list pyval) (i : nat) (template : string) :
  format_args extended formatting args = Ok args' ->
  nth_error args i = Some (VStr template) ->
  exists s, format extended formatting template = Ok s
            /\ nth_error args' i = Some (VStr s).
Proof.
  revert args' i. induction args as [|a args IH]; intros args' i; cbn.
  - intros _ H. now destruct i.
  - destruct a; try discriminate.
    destruct (format extended formatting s) as [s'|] eqn:Es; [cbn|discriminate].
    destruct (format_args extended formatting args) as [l|]; [cbn|discriminate].
    intros [= <-]. destruct i as [|i]; cbn.
    + intros [= <-]. exists s'. now split.
    + intros H. now apply IH.
Qed.

Lemma format_kwargs_in (kw kw' : strdict pyval) (flag template : string) :
  format_kwargs extended formatting kw = Ok kw' ->
  In (flag, VStr template) kw ->
  exists s, format extended formatting template = Ok s
            /\ In (flag, VStr s) kw'.
Proof.
  revert kw'. induction kw as [|[k v] kw IH]; intros kw'; cbn; [tauto|].
  destruct v.
  1-3: destruct (format_kwargs extended formatting kw) as [l|];
       [cbn|discriminate]; intros [= <-] [E | Hin]; [discriminate|];
       destruct (IH l eq_refl Hin) as (s' & Hs & Hin'); exists s';
       split; [assumption | now right].
  destruct (format extended formatting s) as [s'|] eqn:Es; [cbn|discriminate].
  destruct (format_kwargs extended formatting kw) as [l|]; [cbn|discriminate].
  intros [= <-] [E | Hin].
  - injection E as -> ->. exists s'. split; [assumption | now left].
  - destruct (IH l eq_refl Hin) as (s'' & Hs & Hin'). exists s''.
    split; [assumption | now right].
Qed.

Lemma format_args_brace_free (args : list pyval) :
  forallb (fun v => match v with VStr s => brace_free s | _ => false end) args = true ->
  format_args extended formatting args = Ok args.
Proof.
  induction args as [|a args IH]; cbn; [reflexivity|].
  intros H. apply andb_prop in H. destruct H as [Ha Hrest].
  destruct a; try discriminate.
  rewrite (format_brace_free _ Ha). cbn [bind]. now rewrite IH.
Qed.

Lemma format_kwargs_brace_free (kw : strdict pyval) :
  forallb (fun kv => match snd kv with VStr s => brace_free s | _ => true end) kw = true ->
  format_kwargs extended formatting kw = Ok kw.
Proof.
  induction kw as [|[k v] kw IH]; cbn; [reflexivity|].
  intros H. apply andb_prop in H. destruct H as [Hv Hrest].
  destruct v; cbn in Hv; try (rewrite (IH Hrest); reflexivity).
  rewrite (format_brace_free _ Hv). cbn [bind]. now rewrite IH.
Qed.

Lemma format_args_stops (front rest : list pyval) (v : pyval) :
  is_VStr v = false ->
  succeeds (format_args extended formatting front) ->
  format_args extended formatting (front ++ v :: rest) = Raise AttributeError.
Proof.
  intros Hv. induction front as [|a front IH]; cbn.
  - intros _. destruct v; try discriminate; reflexivity.
  - destruct a; try (intros [l Hl]; discriminate).
    destruct (format extended formatting s) as [s'|]; cbn [bind];
      [|intros [l Hl]; discriminate].
    destruct (format_args extended formatting front) as [l|]; cbn [bind];
      [|intros [l' Hl]; discriminate].
    intros _. rewrite IH by (eexists; reflexivity). reflexivity.
Qed.

Lemma format_args_nonstring (args : list pyval) (v : pyval) :
  In v args -> is_VStr v = false ->
  fails (format_args extended formatting args).
Proof.
  intros Hin Hv. induction args as [|a args IH]; [contradiction|].
  destruct Hin as [-> | Hin].
  - destruct v; try discriminate; cbn; eexists; reflexivity.
  - destruct a; cbn; try (eexists; reflexivity).
    apply fails_bind_all. intros s'. apply fails_bind. auto.
Qed.

End Substitution.

(** What the ML job factory read and built, when it built a job. *)
Lemma from_descr_inversion
    (extended : string -> string -> option ascii -> string -> strdict string
                -> result string)
    (store : AMSDataStore) (descr : ml_descr) (mj : AMSMLJob) :
  from_descr extended store descr = Ok mj ->
  exists rd r cli n dn exe,
    descr_resources descr = Some rd
    /\ AMSJobResources_init rd = Ok r
    /\ descr_cli descr = Some cli
    /\ descr_name descr = Some n
    /\ descr_domain_name descr = Some dn
    /\ cli_executable cli = Some exe
    /\ (forall kw, cli_cli_kwargs cli = Some kw ->
           format_kwargs extended (generate_formatting store) kw
           = Ok (cli_kwargs (ml_job mj)))
    /\ (forall args, cli_cli_args cli = Some args ->
           format_args extended (generate_formatting store) args
           = Ok (cli_args (ml_job mj)))
    /\ (cli_cli_kwargs cli = None -> cli_kwargs (ml_job mj) = [])
    /\ (cli_cli_args cli = None -> cli_args (ml_job mj) = [])
    /\ domain mj = dn
    /\ name (ml_job mj) = n
    /\ executable (ml_job mj) = exe
    /\ resources (ml_job mj) = Some r
    /\ environ (ml_job mj) = None
    /\ stdout (ml_job mj) = cli_stdout cli
    /\ stderr (ml_job mj) = cli_stderr cli
    /\ is_mpi (ml_job mj) = Some false
    /\ ams_log (ml_job mj) = or_default (descr_ams_log descr) false.
Proof.
  unfold from_descr.
  destruct (descr_resources descr) as [rd|]; [cbn [getitem bind]|discriminate].
  destruct (AMSJobResources_init rd) as [r|] eqn:Er; [cbn [bind]|discriminate].
  destruct (descr_cli descr) as [cli|]; [cbn [getitem bind]|discriminate].
  destruct (optionally _ (cli_cli_kwargs cli)) as [okw|] eqn:Ekw;
    [cbn [bind]|discriminate].
  destruct (optionally _ (cli_cli_args cli)) as [oargs|] eqn:Eargs;
    [cbn [bind]|discriminate].
  destruct (descr_domain_name descr) as [dn|]; [cbn [getitem bind]|discriminate].
  destruct (descr_name descr) as [n|]; [cbn [getitem bind]|discriminate].
  destruct (cli_executable cli) as [exe|] eqn:Ee; [cbn [getitem bind]|discriminate].
  unfold AMSJob_init. cbn [bind environ_value]. intros [= <-].
  exists rd, r, cli, n, dn, exe.
  cbn [ml_job domain cli_args cli_kwargs name executable resources environ stdout
       stderr is_mpi ams_log].
  unfold optionally in Ekw, Eargs.
  repeat (split; [reflexivity || assumption|]).
  split; [|split; [|split; [|split]]]; try (repeat split; reflexivity).
  - intros kw Hkw. rewrite Hkw in Ekw.
    destruct (format_kwargs _ _ kw) as [l|]; [|discriminate].
    cbn [bind] in Ekw. injection Ekw as <-. reflexivity.
  - intros args Hargs. rewrite Hargs in Eargs.
    destruct (format_args _ _ args) as [l|]; [|discriminate].
    cbn [bind] in Eargs. injection Eargs as <-. reflexivity.
  - intros Hkw. rewrite Hkw in Ekw. injection Ekw as <-. reflexivity.
  - intros Hargs. rewrite Hargs in Eargs. injection Eargs as <-. reflexivity.
Qed.

(** X20: a built ML job has, at the position of a positional argument
    [<prefix>{AMS_STORE_PATH}<rest>] whose prefix has no brace, the prefix,
    the root path of the store and the formatting of the rest; in
    particular [<prefix>{AMS_STORE_PATH}<suffix>] with no other brace
    becomes the prefix, the root path and the suffix.  The same holds for
    the value of a flag. *)
Theorem from_descr_store_path
    (extended : string -> string -> option ascii -> string -> strdict string
                -> result string)
    (store : AMSDataStore) (descr : ml_descr) (cli : cli_descr) (mj : AMSMLJob)
    (Hcli : descr_cli descr = Some cli)
    (Hjob : from_descr extended store descr = Ok mj) :
  (forall args i prefix rest,
      cli_cli_args cli = Some args ->
      nth_error args i
      = Some (VStr (String.append prefix (String.append "{AMS_STORE_PATH}" rest))) ->
      brace_free prefix = true ->
      exists rest',
        format extended (generate_formatting store) rest = Ok rest'
        /\ (brace_free rest = true -> rest' = rest)
        /\ nth_error (cli_args (ml_job mj)) i
           = Some (VStr (String.append prefix
                           (String.append (root_path store) rest'))))
  /\ (forall kw flag prefix rest,
         cli_cli_kwargs cli = Some kw ->
         In (flag,
             VStr (String.append prefix (String.append "{AMS_STORE_PATH}" rest)))
            kw ->
         brace_free prefix = true ->
         exists rest',
           format extended (generate_formatting store) rest = Ok rest'
           /\ (brace_free rest = true -> rest' = rest)
           /\ In (flag,
                  VStr (String.append prefix
                          (String.append (root_path store) rest')))
                 (cli_kwargs (ml_job mj))).
Proof.
  destruct (from_descr_inversion _ _ _ _ Hjob)
    as (rd & r & cli' & n & dn & exe & _ & _ & Hcli' & _ & _ & _ & Hkw & Hargs & _).
  rewrite Hcli in Hcli'. injection Hcli' as <-.
  assert (Hfield : forall prefix rest s,
             brace_free prefix = true ->
             format extended (generate_formatting store)
               (String.append prefix (String.append "{AMS_STORE_PATH}" rest))
             = Ok s ->
             exists rest',
               format extended (generate_formatting store) rest = Ok rest'
               /\ (brace_free rest = true -> rest' = rest)
               /\ s = String.append prefix (String.append (root_path store) rest')).
  { intros prefix rest s Hfree.
    rewrite format_prefix by assumption.
    rewrite (format_store_path _ _ (root_path store)) by reflexivity.
    destruct (format extended (generate_formatting store) rest) as [rest'|] eqn:Er;
      [cbn [bind]|discriminate].
    intros [= <-]. exists rest'. split; [reflexivity|]. split; [|reflexivity].
    intros Hrest. rewrite (format_brace_free _ _ _ Hrest) in Er. congruence. }
  split.
  - intros args i prefix rest Ha Hnth Hfree.
    destruct (format_args_nth _ _ _ _ _ _ (Hargs _ Ha) Hnth) as (s & Hs & Hn).
    destruct (Hfield _ _ _ Hfree Hs) as (rest' & Hr & Hsame & ->).
    exists rest'. repeat split; assumption.
  - intros kw flag prefix rest Hk Hin Hfree.
    destruct (format_kwargs_in _ _ _ _ _ _ (Hkw _ Hk) Hin) as (s & Hs & Hn).
    destruct (Hfield _ _ _ Hfree Hs) as (rest' & Hr & Hsame & ->).
    exists rest'. repeat split; assumption.
Qed.

Lemma from_descr_store_path_witness :
  exists mj,
    from_descr plain_fields_only one_model_store train_descr = Ok mj
    /\ nth_error (cli_args (ml_job mj)) 1 = Some (VStr "/db/data").
Proof.
  eexists. split; [reflexivity|].
  destruct (proj1 (from_descr_store_path plain_fields_only one_model_store
                     train_descr _ _ eq_refl eq_refl)
              _ 1%nat "" "/data" eq_refl eq_refl eq_refl)
    as (rest' & _ & Hsame & Hnth).
  rewrite (Hsame eq_refl) in Hnth. exact Hnth.
Defined.

(** X21: a description whose positional arguments are strings without
    braces and whose flag values are strings without braces or no strings
    goes through the factory unchanged: the job it builds has exactly these
    arguments and flags, and the factory does not fail on their account. *)
Theorem from_descr_brace_free
    (extended : string -> string -> option ascii -> string -> strdict string
                -> result string)
    (store : AMSDataStore) (descr : ml_descr) (cli : cli_descr)
    (args : list pyval) (kw : strdict pyval)
    (Hcli : descr_cli descr = Some cli)
    (Hargs : cli_cli_args cli = Some args)
    (Hkw : cli_cli_kwargs cli = Some kw)
    (Hfree_args :
       forallb (fun v => match v with VStr s => brace_free s | _ => false end) args
       = true)
    (Hfree_kw :
       forallb (fun kv => match snd kv with VStr s => brace_free s | _ => true end)
               kw
       = true) :
  (forall mj, from_descr extended store descr = Ok mj ->
              cli_args (ml_job mj) = args /\ cli_kwargs (ml_job mj) = kw)
  /\ (succeeds (from_descr extended store descr)
      <-> (exists rd, descr_resources descr = Some rd
                      /\ succeeds (AMSJobResources_init rd))
          /\ descr_name descr <> None
          /\ descr_domain_name descr <> None
          /\ cli_executable cli <> None).
Proof.
  split.
  - intros mj Hjob.
    destruct (from_descr_inversion _ _ _ _ Hjob)
      as (rd & r & cli' & n & dn & exe & _ & _ & Hcli' & _ & _ & _ & Hk & Ha & _).
    rewrite Hcli in Hcli'. injection Hcli' as <-.
    specialize (Ha _ Hargs). specialize (Hk _ Hkw).
    rewrite format_args_brace_free in Ha by assumption.
    rewrite format_kwargs_brace_free in Hk by assumption.
    split; congruence.
  - split.
    + intros [mj Hjob].
      destruct (from_descr_inversion _ _ _ _ Hjob)
        as (rd & r & cli' & n & dn & exe & Hrd & Hr & Hcli' & Hn & Hdn & He & _).
      rewrite Hcli in Hcli'. injection Hcli' as <-.
      split; [exists rd; split; [assumption|]; exists r; assumption|].
      repeat split; congruence.
    + intros [(rd & Hrd & [r Hr]) (Hn & Hdn & He)].
      unfold from_descr. rewrite Hrd, Hcli. cbn [getitem bind].
      rewrite Hr. cbn [bind]. rewrite Hkw, Hargs. cbn [optionally].
      rewrite format_args_brace_free by assumption.
      rewrite format_kwargs_brace_free by assumption. cbn [bind].
      destruct (descr_domain_name descr); [|now elim Hdn].
      destruct (descr_name descr); [|now elim Hn].
      destruct (cli_executable cli); [|now elim He].
      cbn [getitem bind]. unfold AMSJob_init. cbn [bind environ_value].
      eexists. reflexivity.
Qed.

Lemma from_descr_brace_free_witness :
  succeeds (from_descr plain_fields_only one_model_store plain_descr).
Proof.
  apply (proj2 (from_descr_brace_free plain_fields_only one_model_store
                  plain_descr plain_cli [VStr "fit.py"]
                  [("--epochs", VInt 3); ("--out", VStr "models")]
                  eq_refl eq_refl eq_refl eq_refl eq_refl)).
  split; [|repeat split; discriminate].
  eexists. split; [reflexivity|]. eexists. reflexivity.
Defined.

(** X22: the loop over the positional arguments calls [format] on every
    one of them, so a description with a positional argument that is no
    string (a number, say) builds no ML job, while a flag may have such a
    value; when the factory gets as far as that argument, the error is the
    [AttributeError] of the missing method. *)
Theorem from_descr_nonstring_argument
    (extended : string -> string -> option ascii -> string -> strdict string
                -> result string)
    (store : AMSDataStore) (descr : ml_descr) (cli : cli_descr)
    (args : list pyval) (v : pyval)
    (Hcli : descr_cli descr = Some cli)
    (Hargs : cli_cli_args cli = Some args)
    (Hin : In v args)
    (Hv : is_VStr v = false) :
  fails (from_descr extended store descr)
  /\ (forall rd kw front rest,
         descr_resources descr = Some rd ->
         succeeds (AMSJobResources_init rd) ->
         cli_cli_kwargs cli = Some kw ->
         succeeds (format_kwargs extended (generate_formatting store) kw) ->
         args = front ++ v :: rest ->
         succeeds (format_args extended (generate_formatting store) front) ->
         from_descr extended store descr = Raise AttributeError).
Proof.
  split.
  - unfold from_descr. rewrite Hcli.
    apply fails_bind_all. intros rd.
    apply fails_bind_all. intros r. cbn [getitem bind].
    apply fails_bind_all. intros okw. apply fails_bind.
    rewrite Hargs. cbn [optionally]. apply fails_bind.
    eapply format_args_nonstring; eauto.
  - intros rd kw front rest Hrd [r Hr] Hkw [kw' Hkw'] -> Hfront.
    unfold from_descr. rewrite Hrd, Hcli. cbn [getitem bind].
    rewrite Hr. cbn [bind]. rewrite Hkw, Hargs. cbn [optionally].
    rewrite Hkw'. cbn [bind].
    rewrite (format_args_stops _ _ _ _ _ Hv Hfront). reflexivity.
Qed.

Lemma from_descr_nonstring_argument_witness :
  from_descr plain_fields_only one_model_store int_arg_descr = Raise AttributeError.
Proof.
  refine (proj2 (from_descr_nonstring_argument plain_fields_only one_model_store
                   int_arg_descr _ _ (VInt 3) eq_refl eq_refl
                   (or_intror (or_introl eq_refl)) eq_refl)
            _ _ [VStr "fit.py"] [] eq_refl _ eq_refl _ eq_refl _);
    eexists; reflexivity.
Defined.

(** X23: [AMSNetworkStageJob.from_descr] raises a [TypeError] on a
    description with a key that is no keyword of the constructor; a job it
    builds has the credentials, the mechanism [network] and the database
    type of the description (or [dhdf5]), ends its arguments with the store
    flag ([--store] unless the description says otherwise), and, when the
    description gives no environment, has none and so never lowers to a
    specification. *)
Theorem AMSNetworkStageJob_from_descr_job (path_exists : string -> bool)
    (descr : network_descr) (dest persistent_db_path creds : string)
    (res : resources_arg) :
  (nd_unexpected descr <> [] ->
   AMSNetworkStageJob_from_descr path_exists descr dest persistent_db_path creds res
   = Raise TypeError)
  /\ (forall j,
         AMSNetworkStageJob_from_descr path_exists descr dest persistent_db_path
           creds res
         = Ok j ->
         dict_get "--creds" (cli_kwargs j) = Some (VStr creds)
         /\ dict_get "--mechanism" (cli_kwargs j) = Some (VStr "network")
         /\ dict_get "--db-type" (cli_kwargs j)
            = Some (VStr (or_default (nd_db_type descr) "dhdf5"))
         /\ last (cli_args j) VNone
            = VStr (if or_default (nd_store descr) true then "--store"
                    else "--no-store")
         /\ (nd_environ descr = None \/ nd_environ descr = Some (AScalar VNone) ->
             environ j = None
             /\ forall lib cwd, fails (to_flux_jobspec lib cwd j))).
Proof.
  unfold AMSNetworkStageJob_from_descr. split.
  - destruct (nd_unexpected descr); [intros H; now elim H | reflexivity].
  - intros j. destruct (nd_unexpected descr); [|discriminate].
    unfold AMSNetworkStageJob_init. intros H.
    pose proof (AMSStageJob_init_inversion _ _ _ _ _ _ _ _ _ _ _ _ _ _ _ H)
      as (kw & Hk & Ha & _ & _ & [[_ Hkw] | (p & c & _ & _ & _ & Hkw)]);
      rewrite Hk, Hkw, Ha; (split; [lookup_flag|]); (split; [lookup_flag|]);
      (split; [lookup_flag|]); (split; [apply last_last|]);
      intros Henv;
      assert (Hnone : environ j = None)
        by (eapply AMSStageJob_environ_none;
            replace (AScalar VNone)
              with (or_default (nd_environ descr) (AScalar VNone))
              by (destruct Henv as [-> | ->]; reflexivity);
            exact H);
      (split; [exact Hnone|]); intros lib cwd;
      destruct (to_flux_jobspec lib cwd j) as [spec|e] eqn:E;
      try (exists e; reflexivity);
      destruct (to_flux_jobspec_inversion _ _ _ _ E) as (r & env & n & _ & He & _);
      congruence.
Qed.
